(** * ELRS_Serial: the CRSF receiver of [src/src/ELRS_Serial.py]

    A shallow embedding of the [CRSFReceiver] class: its CRC8 engine, the
    frame validator, the two payload decoders, the battery telemetry encoder
    and the synchronizer loop of [update].

    Bytes are integers of [Z] in [0, 256); a [bytes] or [bytearray] object is
    a [list Z].  Python integers are unbounded, so every mask the source
    writes is written here too and nothing else is wrapped.  Python floats
    are IEEE binary64 values, embedded as primitive floats.  Exceptions are
    values of [Py.result]; the methods that mutate [self] run in a small
    state-and-exception monad over the receiver's fields. *)

From Stdlib Require Import ZArith List Lia Bool.
From Stdlib Require Import Floats.PrimFloat Floats.FloatOps Floats.SpecFloat.
From Stdlib Require Import Numbers.Cyclic.Int63.Uint63.
From stdpp Require Import base option list gmap.

Local Open Scope Z_scope.

#[local] Set Warnings "-inexact-float".

(** ** The fragment of Python the source relies on *)

Module Py.

Inductive exn : Set :=
| IndexError
| ValueError
| OverflowError
| StructError.

Inductive result (A : Type) : Type :=
| Ok (a : A)
| Raise (e : exn).
Arguments Ok {A} a.
Arguments Raise {A} e.

Definition len (l : list Z) : Z := Z.of_nat (length l).

(** [l[i]], negative indices counted from the end. *)
Definition index (l : list Z) (i : Z) : result Z :=
  let j := if i <? 0 then i + len l else i in
  if (j <? 0) || (len l <=? j) then Raise IndexError
  else match l !! Z.to_nat j with
       | Some x => Ok x
       | None => Raise IndexError
       end.

(** A slice bound, clamped to the sequence as Python does. *)
Definition clamp (n i : Z) : Z :=
  if i <? 0 then Z.max (i + n) 0 else Z.min i n.

(** [l[lo:hi]]; [None] is an omitted bound. *)
Definition slice (l : list Z) (lo hi : option Z) : list Z :=
  let a := from_option (clamp (len l)) 0 lo in
  let b := from_option (clamp (len l)) (len l) hi in
  take (Z.to_nat (b - a)) (drop (Z.to_nat a) l).

(** [range(n)]. *)
Definition range (n : nat) : list Z := Z.of_nat <$> seq 0 n.

(** [float(z)] for an integer, exact while [|z| < 2^53]. *)
Definition float_of_int (z : Z) : float :=
  if z <? 0 then PrimFloat.opp (PrimFloat.of_uint63 (Uint63.of_Z (- z)))
  else PrimFloat.of_uint63 (Uint63.of_Z z).

(** [int(f)]: truncation toward zero. *)
Definition int (f : float) : result Z :=
  match Prim2SF f with
  | S754_zero _ => Ok 0
  | S754_infinity _ => Raise OverflowError
  | S754_nan => Raise ValueError
  | S754_finite s m e =>
      let mag := Z.shiftl (Z.pos m) e in
      Ok (if s then - mag else mag)
  end.

(** [round(f)]: to the nearest integer, ties to the even one. *)
Definition round (f : float) : result Z :=
  match Prim2SF f with
  | S754_zero _ => Ok 0
  | S754_infinity _ => Raise OverflowError
  | S754_nan => Raise ValueError
  | S754_finite s m e =>
      let mag :=
        if 0 <=? e then Z.shiftl (Z.pos m) e
        else
          let q := Z.shiftr (Z.pos m) (- e) in
          let twice_rem := 2 * (Z.pos m - Z.shiftl q (- e)) in
          let unit := Z.shiftl 1 (- e) in
          if (unit <? twice_rem) || ((twice_rem =? unit) && Z.odd q)
          then q + 1 else q in
      Ok (if s then - mag else mag)
  end.

(** One [H] field of [struct.pack('>...')]: unsigned 16 bits, big-endian. *)
Definition pack_H (x : Z) : result (list Z) :=
  if (0 <=? x) && (x <=? 65535)
  then Ok [Z.shiftr x 8; Z.land x 255]
  else Raise StructError.

(** One [B] field: an unsigned byte. *)
Definition pack_B (x : Z) : result (list Z) :=
  if (0 <=? x) && (x <=? 255) then Ok [x] else Raise StructError.

End Py.

Import Py (Ok, Raise, IndexError, ValueError, OverflowError, StructError).

Definition is_byte (b : Z) : Prop := 0 <= b < 256.

Definition is_byteb (b : Z) : bool := (0 <=? b) && (b <? 256).

(** ** CRC8 engine *)

(** The body of [for _ in range(8)] in [_crc8_dvb_s2]; the source does not
    mask inside the loop, the accumulator grows past eight bits. *)
Definition crc8_shift (crc : Z) : Z :=
  if Z.land crc 0x80 =? 0 then Z.shiftl crc 1
  else Z.lxor (Z.shiftl crc 1) 0xD5.

Fixpoint crc8_rounds (n : nat) (crc : Z) : Z :=
  match n with
  | O => crc
  | S n' => crc8_rounds n' (crc8_shift crc)
  end.

Definition _crc8_dvb_s2 (crc a : Z) : Z :=
  let crc := Z.lxor crc a in
  Z.land (crc8_rounds 8 crc) 0xFF.

Definition _crc8_data (data : list Z) : Z :=
  fold_left _crc8_dvb_s2 data 0.

(** The DVB-S2 reference definition in the specification's words: an 8-bit
    accumulator, reduced to eight bits in every iteration. *)
Module Reference.

Definition shift (acc : Z) : Z :=
  if Z.testbit acc 7
  then Z.land (Z.lxor (Z.shiftl acc 1) 0xD5) 0xFF
  else Z.land (Z.shiftl acc 1) 0xFF.

Fixpoint rounds (n : nat) (acc : Z) : Z :=
  match n with
  | O => acc
  | S n' => rounds n' (shift acc)
  end.

Definition crc8_byte (acc a : Z) : Z := rounds 8 (Z.lxor acc a).

Definition crc8 (data : list Z) : Z := fold_left crc8_byte data 0.

End Reference.

(** ** The receiver *)

Record LinkStats : Set := mkLinkStats {
  rssi1 : Z;
  rssi2 : Z;
  link_quality : Z;
  snr : Z
}.

Definition CRSF_SYNC : Z := 0xC8.
Definition CRSF_TELEMETRY_SYNC : Z := 0xC8.

Inductive PacketTypes : Set :=
| GPS
| VARIO
| BATTERY_SENSOR
| BARO_ALT
| HEARTBEAT
| VIDEO_TRANSMITTER
| LINK_STATISTICS
| RC_CHANNELS_PACKED
| ATTITUDE
| FLIGHT_MODE
| DEVICE_INFO.

(** The integer value of an [IntEnum] member. *)
Definition value (t : PacketTypes) : Z :=
  match t with
  | GPS => 0x02
  | VARIO => 0x07
  | BATTERY_SENSOR => 0x08
  | BARO_ALT => 0x09
  | HEARTBEAT => 0x0B
  | VIDEO_TRANSMITTER => 0x0F
  | LINK_STATISTICS => 0x14
  | RC_CHANNELS_PACKED => 0x16
  | ATTITUDE => 0x1E
  | FLIGHT_MODE => 0x21
  | DEVICE_INFO => 0x29
  end.

(** The fields of [self] that the codec reads and writes; the serial handle
    and its settings belong to the I/O wrapper. *)
Record CRSFReceiver : Type := mkReceiver {
  input_buffer : list Z;
  channels : gmap Z Z;
  link_stats : option LinkStats
}.

Definition set_input_buffer (buf : list Z) (r : CRSFReceiver) : CRSFReceiver :=
  mkReceiver buf (channels r) (link_stats r).

Definition set_channel (k v : Z) (r : CRSFReceiver) : CRSFReceiver :=
  mkReceiver (input_buffer r) (<[k := v]> (channels r)) (link_stats r).

Definition set_link_stats (ls : LinkStats) (r : CRSFReceiver) : CRSFReceiver :=
  mkReceiver (input_buffer r) (channels r) (Some ls).

(** [__init__], without the connection. *)
Definition init : CRSFReceiver :=
  mkReceiver [] (list_to_map ((fun i => (i, 1500)) <$> (Z.of_nat <$> seq 1 16))) None.

(** ** Methods that mutate [self]: state and exceptions *)

Definition M (A : Type) : Type := CRSFReceiver -> Py.result A * CRSFReceiver.

Definition ret {A} (a : A) : M A := fun r => (Ok a, r).

Definition bind {A B} (m : M A) (k : A -> M B) : M B :=
  fun r =>
    match m r with
    | (Ok a, r') => k a r'
    | (Raise e, r') => (Raise e, r')
    end.

Definition lift {A} (x : Py.result A) : M A := fun r => (x, r).

Definition modify (f : CRSFReceiver -> CRSFReceiver) : M unit :=
  fun r => (Ok tt, f r).

Notation "x <- m ;; k" := (bind m (fun x => k))
  (at level 100, m at next level, right associativity).
Notation "m ;;; k" := (bind m (fun _ => k))
  (at level 100, right associativity).

(** [for i in l: body(i)] *)
Fixpoint for_each (l : list Z) (body : Z -> M unit) : M unit :=
  match l with
  | [] => ret tt
  | i :: l' => body i ;;; for_each l' body
  end.

(** ** Frame validator *)

Definition _validate_frame (frame : list Z) : Py.result bool :=
  let crc := _crc8_data (Py.slice frame (Some 2) (Some (-1))) in
  match Py.index frame (-1) with
  | Ok last => Ok (crc =? last)
  | Raise e => Raise e
  end.

(** ** Payload decoders *)

(** Lines 95 to 107 of [_decode_channels]: the 11-bit field of channel [i].
    The first byte is read unguarded, the second and third under a length
    test. *)
Definition raw_channel (channel_data : list Z) (i : Z) : Py.result Z :=
  let bits := i * 11 in
  let byte_index := bits / 8 in
  let bit_index := bits mod 8 in
  match Py.index channel_data byte_index with
  | Raise e => Raise e
  | Ok raw =>
      match
        (if byte_index + 1 <? Py.len channel_data
         then match Py.index channel_data (byte_index + 1) with
              | Ok b => Ok (Z.lor raw (Z.shiftl b 8))
              | Raise e => Raise e
              end
         else Ok raw)
      with
      | Raise e => Raise e
      | Ok raw =>
          match
            (if byte_index + 2 <? Py.len channel_data
             then match Py.index channel_data (byte_index + 2) with
                  | Ok b => Ok (Z.lor raw (Z.shiftl b 16))
                  | Raise e => Raise e
                  end
             else Ok raw)
          with
          | Raise e => Raise e
          | Ok raw => Ok (Z.land (Z.shiftr raw bit_index) 0x07FF)
          end
      end
  end.

(** Line 110: [int(value * 0.62 + 881)] in binary64 arithmetic. *)
Definition to_us (v : Z) : Py.result Z :=
  Py.int (Py.float_of_int v * 0.62 + Py.float_of_int 881)%float.

(** The body of the loop of [_decode_channels], lines 95 to 110. *)
Definition decode_channel (channel_data : list Z) (i : Z) : M unit :=
  v <- lift (raw_channel channel_data i) ;;
  us <- lift (to_us v) ;;
  modify (set_channel (i + 1) us).

Definition _decode_channels (data : list Z) : M unit :=
  let channel_data := Py.slice data (Some 3) None in
  for_each (Py.range 16) (decode_channel channel_data).

Definition _decode_link_stats (data : list Z) : M unit :=
  b3 <- lift (Py.index data 3) ;;
  b4 <- lift (Py.index data 4) ;;
  b5 <- lift (Py.index data 5) ;;
  b6 <- lift (Py.index data 6) ;;
  modify (set_link_stats
    {| rssi1 := -1 * b3;
       rssi2 := -1 * b4;
       link_quality := b5;
       snr := if b6 <? 128 then b6 else b6 - 256 |}).

Definition _handle_packet (packet_type : Z) (data : list Z) : M unit :=
  if packet_type =? value RC_CHANNELS_PACKED then _decode_channels data
  else if packet_type =? value LINK_STATISTICS then _decode_link_stats data
  else ret tt.

(** ** Telemetry encoder *)

(** Lines 152 to 161 of [send_battery_telemetry], for any type byte: header,
    payload, then the CRC of [frame[2:]]. *)
Definition build_frame (type : Z) (payload : list Z) : list Z :=
  let frame := [CRSF_TELEMETRY_SYNC; Py.len payload + 2; type] in
  let frame := frame ++ payload in
  let crc := _crc8_data (Py.slice frame (Some 2) None) in
  frame ++ [crc].

(** [struct.pack('>HHHB', a, b, c, d)] *)
Definition pack_HHHB (a b c d : Z) : Py.result (list Z) :=
  match Py.pack_H a, Py.pack_H b, Py.pack_H c, Py.pack_B d with
  | Ok x, Ok y, Ok z, Ok w => Ok (x ++ y ++ z ++ w)
  | _, _, _, _ => Raise StructError
  end.

(** The result is the frame handed to [serial.write]. *)
Definition send_battery_telemetry
    (voltage current : float) (mah remaining_percent : Z) : Py.result (list Z) :=
  match Py.int (voltage * Py.float_of_int 10)%float with
  | Raise e => Raise e
  | Ok voltage_scaled =>
      match Py.int (current * Py.float_of_int 10)%float with
      | Raise e => Raise e
      | Ok current_scaled =>
          match pack_HHHB voltage_scaled current_scaled mah remaining_percent with
          | Raise e => Raise e
          | Ok payload => Ok (build_frame (value BATTERY_SENSOR) payload)
          end
      end
  end.

(** ** Frame synchronizer *)

(** What one pass through the body of the [while] loop of [update] does. *)
Inductive step : Type :=
| Stop
    (* the loop condition is false, or [break] was reached *)
| Skip (r' : CRSFReceiver)
    (* a byte was dropped or a frame failed validation; [continue] *)
| Handle (packet : list Z) (out : Py.result unit * CRSFReceiver)
    (* a validated frame went to [_handle_packet] *)
| Abort (e : Py.exn) (r' : CRSFReceiver).
    (* an exception outside [_handle_packet] *)

Definition update_step (r : CRSFReceiver) : step :=
  let buf := input_buffer r in
  if negb (2 <? Py.len buf) then Stop
  else
    match Py.index buf 0 with
    | Raise e => Abort e r
    | Ok b0 =>
        if negb (b0 =? CRSF_SYNC) then Skip (set_input_buffer (drop 1 buf) r)
        else
          match Py.index buf 1 with
          | Raise e => Abort e r
          | Ok length =>
              let expected_len := length + 2 in
              if (64 <? expected_len) || (expected_len <? 4)
              then Skip (set_input_buffer (drop 1 buf) r)
              else if expected_len <=? Py.len buf then
                let packet := Py.slice buf None (Some expected_len) in
                let r1 := set_input_buffer (Py.slice buf (Some expected_len) None) r in
                match _validate_frame packet with
                | Raise e => Abort e r1
                | Ok false => Skip r1
                | Ok true =>
                    match Py.index packet 2 with
                    | Raise e => Abort e r1
                    | Ok packet_type => Handle packet (_handle_packet packet_type packet r1)
                    end
                end
              else Stop
          end
    end.

(** The outcome of a processing cycle: the frames dispatched to
    [_handle_packet], in order, then how the call ended and the receiver it
    left behind. *)
Definition cycle : Type := list (list Z) * (Py.result unit * CRSFReceiver).

Definition dispatched (c : cycle) : list (list Z) := fst c.
Definition outcome (c : cycle) : Py.result unit := fst (snd c).
Definition receiver (c : cycle) : CRSFReceiver := snd (snd c).

Definition log_packet (p : list Z) (c : cycle) : cycle := (p :: fst c, snd c).

(** The [while] loop; [None] only when the fuel runs out. *)
Fixpoint update_loop (fuel : nat) (r : CRSFReceiver) : option cycle :=
  match fuel with
  | O => None
  | S fuel' =>
      match update_step r with
      | Stop => Some ([], (Ok tt, r))
      | Skip r' => update_loop fuel' r'
      | Handle p (Ok _, r') => log_packet p <$> update_loop fuel' r'
      | Handle p (Raise e, r') => Some ([p], (Raise e, r'))
      | Abort e r' => Some ([], (Raise e, r'))
      end
  end.

(** [update], given the bytes the serial port had waiting ([[]] when
    [in_waiting] is 0).  Every pass that continues shortens the buffer, so
    one unit of fuel more than its length lets the loop finish. *)
Definition update (r : CRSFReceiver) (incoming : list Z) : option cycle :=
  let r := set_input_buffer (input_buffer r ++ incoming) r in
  update_loop (S (length (input_buffer r))) r.

(** Successive calls of [update], one per batch of bytes; a caller that
    catches an exception of one call goes on with the next. *)
Fixpoint cycles (r : CRSFReceiver) (batches : list (list Z)) : option CRSFReceiver :=
  match batches with
  | [] => Some r
  | incoming :: rest =>
      match update r incoming with
      | Some c => cycles (receiver c) rest
      | None => None
      end
  end.

Definition get_channels (r : CRSFReceiver) : gmap Z Z := channels r.

Definition get_link_stats (r : CRSFReceiver) : option LinkStats := link_stats r.

(** ** Frames *)

Definition index_is (f : list Z) (i v : Z) : bool :=
  match Py.index f i with
  | Ok x => x =? v
  | Raise _ => false
  end.

(** A frame as the synchronizer admits it and the validator accepts it:
    bytes, sync byte first, LENGTH two less than the size, 4 to 64 bytes,
    CRC correct. *)
Definition valid_frame (f : list Z) : bool :=
  forallb is_byteb f
  && (4 <=? Py.len f) && (Py.len f <=? 64)
  && index_is f 0 CRSF_SYNC
  && index_is f 1 (Py.len f - 2)
  && match _validate_frame f with Ok b => b | Raise _ => false end.

(** A candidate frame: what the synchronizer cuts from the buffer, before
    the CRC is looked at. *)
Definition candidate_frame (f : list Z) : bool :=
  (4 <=? Py.len f) && (Py.len f <=? 64)
  && index_is f 0 CRSF_SYNC
  && index_is f 1 (Py.len f - 2).

(** ** Microsecond conversion, exactly *)

(** The truncated value of [v * 0.62 + 881] in exact arithmetic. *)
Definition us_floor (v : Z) : Z := (62 * v + 88100) / 100.

Definition to_us_agrees (v : Z) : bool :=
  match to_us v with
  | Ok u => u =? us_floor v
  | Raise _ => false
  end.

(** The conversion in the specification's words: [round(raw * 0.62 + 881)]. *)
Definition spec_to_us (v : Z) : Py.result Z :=
  Py.round (Py.float_of_int v * 0.62 + Py.float_of_int 881)%float.

(** ** The channel mapping *)

Definition channel_keys : gset Z := list_to_set (Z.of_nat <$> seq 1 16).

(** Keys 1 to 16, each value the default 1500 or a decoded value. *)
Definition channels_ok (m : gmap Z Z) : Prop :=
  dom m = channel_keys
  /\ map_Forall (fun _ v => v = 1500 \/ 881 <= v <= 2150) m.

(** ** The packed payload as one number *)

(** The little-endian integer a byte string spells, in the specification's
    words; channel [i] is its bits [11 i] to [11 i + 10]. *)
Definition le_value (bytes : list Z) : Z :=
  foldr (fun b acc => Z.lor b (Z.shiftl acc 8)) 0 bytes.

Definition spec_field (bytes : list Z) (i : Z) : Z :=
  Z.land (Z.shiftr (le_value bytes) (i * 11)) 0x07FF.

(** ** Test vectors *)

(** RC_CHANNELS_PACKED frames whose sixteen 11-bit fields are all 0, and
    all 2047. *)
Definition zeros_frame : list Z :=
  build_frame (value RC_CHANNELS_PACKED) (repeat 0 22).

Definition ones_frame : list Z :=
  build_frame (value RC_CHANNELS_PACKED) (repeat 255 22).

Definition field_is (cd : list Z) (x i : Z) : bool :=
  match raw_channel cd i with
  | Ok v => v =? x
  | Raise _ => false
  end.

(** ** The read at the head of [update] *)

(** Line 180: [self.input_buffer.extend(...)]. *)
Definition extend (r : CRSFReceiver) (incoming : list Z) : CRSFReceiver :=
  set_input_buffer (input_buffer r ++ incoming) r.

(** The frames on which [_handle_packet] ends in [IndexError]: an
    RC_CHANNELS_PACKED frame under 24 bytes, a LINK_STATISTICS frame under
    7. *)
Definition handler_raises (packet : list Z) : bool :=
  match Py.index packet 2 with
  | Ok t =>
      if t =? value RC_CHANNELS_PACKED then Py.len packet <? 24
      else if t =? value LINK_STATISTICS then Py.len packet <? 7
      else false
  | Raise _ => false
  end.

(** A dispatched frame is one the synchronizer cut out and the validator
    accepted. *)
Definition accepted (packet : list Z) : Prop :=
  candidate_frame packet = true /\ _validate_frame packet = Ok true.

(** The decoded link statistics stay within what four bytes can spell. *)
Definition link_stats_ok (o : option LinkStats) : Prop :=
  match o with
  | None => True
  | Some ls =>
      -255 <= rssi1 ls <= 0 /\ -255 <= rssi2 ls <= 0
      /\ 0 <= link_quality ls <= 255 /\ -128 <= snr ls <= 127
  end.

(** ** Indexing and slicing *)

Section PyFacts.

Lemma len_app (l k : list Z) : Py.len (l ++ k) = Py.len l + Py.len k.
Proof. unfold Py.len. rewrite length_app. lia. Qed.

Lemma len_nonneg (l : list Z) : 0 <= Py.len l.
Proof. unfold Py.len. lia. Qed.

Lemma index_lookup (l : list Z) (i : Z) :
  0 <= i < Py.len l ->
  exists x, l !! Z.to_nat i = Some x /\ Py.index l i = Ok x.
Proof.
  intros Hi. unfold Py.index.
  replace (i <? 0) with false by (symmetry; apply Z.ltb_ge; lia).
  replace (i <? 0) with false by (symmetry; apply Z.ltb_ge; lia).
  replace (Py.len l <=? i) with false by (symmetry; apply Z.leb_gt; lia).
  cbn [orb].
  destruct (lookup_lt_is_Some_2 l (Z.to_nat i)) as [x Hx].
  { unfold Py.len in Hi. lia. }
  exists x. rewrite Hx. split; reflexivity.
Qed.

Lemma index_out_of_range (l : list Z) (i : Z) :
  Py.len l <= i -> Py.index l i = Raise IndexError.
Proof.
  intros Hi. pose proof (len_nonneg l). unfold Py.index.
  replace (i <? 0) with false by (symmetry; apply Z.ltb_ge; lia).
  replace (i <? 0) with false by (symmetry; apply Z.ltb_ge; lia).
  replace (Py.len l <=? i) with true by (symmetry; apply Z.leb_le; lia).
  reflexivity.
Qed.

Lemma index_inv (l : list Z) (i x : Z) :
  0 <= i -> Py.index l i = Ok x -> i < Py.len l /\ l !! Z.to_nat i = Some x.
Proof.
  intros Hi Hx. destruct (Z_lt_le_dec i (Py.len l)) as [Hlt | Hge].
  - split; [exact Hlt |].
    destruct (index_lookup l i) as (y & Hy & Hy'); [lia |]. congruence.
  - rewrite index_out_of_range in Hx by exact Hge. discriminate Hx.
Qed.

Lemma index_app_l (l k : list Z) (i : Z) :
  0 <= i < Py.len l -> Py.index (l ++ k) i = Py.index l i.
Proof.
  intros Hi.
  destruct (index_lookup l i) as (x & Hx & ->); [exact Hi |].
  destruct (index_lookup (l ++ k) i) as (y & Hy & ->).
  { rewrite len_app. pose proof (len_nonneg k). lia. }
  rewrite lookup_app_l in Hy by (unfold Py.len in Hi; lia). congruence.
Qed.

Lemma index_last (l : list Z) (x : Z) : Py.index (l ++ [x]) (-1) = Ok x.
Proof.
  unfold Py.index. rewrite len_app. change (Py.len [x]) with 1.
  pose proof (len_nonneg l). change (-1 <? 0) with true. cbv iota.
  replace (-1 + (Py.len l + 1)) with (Py.len l) by lia.
  replace (Py.len l <? 0) with false by (symmetry; apply Z.ltb_ge; lia).
  replace (Py.len l + 1 <=? Py.len l) with false by (symmetry; apply Z.leb_gt; lia).
  cbn [orb]. unfold Py.len. rewrite Nat2Z.id.
  rewrite lookup_app_r by lia. rewrite Nat.sub_diag. reflexivity.
Qed.

(** [l[a:]] *)
Lemma slice_from (l : list Z) (a : Z) :
  0 <= a -> Py.slice l (Some a) None = drop (Z.to_nat a) l.
Proof.
  intros Ha. unfold Py.slice, Py.clamp. cbn [from_option].
  replace (a <? 0) with false by (symmetry; apply Z.ltb_ge; lia).
  destruct (Z_le_gt_dec a (Py.len l)) as [Hle | Hgt].
  - rewrite Z.min_l by lia. apply take_ge. rewrite length_drop.
    unfold Py.len in *. lia.
  - rewrite Z.min_r by lia.
    rewrite !drop_ge by (unfold Py.len in *; lia). apply take_nil.
Qed.

(** [l[:b]] *)
Lemma slice_to (l : list Z) (b : Z) :
  0 <= b -> Py.slice l None (Some b) = take (Z.to_nat b) l.
Proof.
  intros Hb. unfold Py.slice, Py.clamp. cbn [from_option].
  replace (b <? 0) with false by (symmetry; apply Z.ltb_ge; lia).
  rewrite Z.sub_0_r. change (Z.to_nat 0) with O. rewrite drop_0.
  destruct (Z_le_gt_dec b (Py.len l)) as [Hle | Hgt].
  - rewrite Z.min_l by lia. reflexivity.
  - rewrite Z.min_r by lia.
    rewrite !take_ge by (unfold Py.len in *; lia). reflexivity.
Qed.

(** [l[a:b]] for bounds inside the sequence *)
Lemma slice_between (l : list Z) (a b : Z) :
  0 <= a <= b -> b <= Py.len l ->
  Py.slice l (Some a) (Some b) = take (Z.to_nat (b - a)) (drop (Z.to_nat a) l).
Proof.
  intros Hab Hb. unfold Py.slice, Py.clamp. cbn [from_option].
  replace (a <? 0) with false by (symmetry; apply Z.ltb_ge; lia).
  replace (b <? 0) with false by (symmetry; apply Z.ltb_ge; lia).
  rewrite !Z.min_l by lia. reflexivity.
Qed.

(** [(h ++ body ++ [x])[2:-1]] when [h] has two elements *)
Lemma slice_body (a b x : Z) (body : list Z) :
  Py.slice (a :: b :: body ++ [x]) (Some 2) (Some (-1)) = body.
Proof.
  unfold Py.slice, Py.clamp. cbn [from_option].
  change (2 <? 0) with false. change (-1 <? 0) with true. cbv iota.
  assert (Hlen : Py.len (a :: b :: body ++ [x]) = Py.len body + 3).
  { unfold Py.len. cbn [length]. rewrite length_app. cbn [length]. lia. }
  rewrite Hlen. pose proof (len_nonneg body).
  rewrite Z.min_l, Z.max_l by lia.
  change (Z.to_nat 2) with 2%nat. cbn [drop].
  replace (Z.to_nat (-1 + (Py.len body + 3) - 2)) with (length body)
    by (unfold Py.len; lia).
  apply take_app_length.
Qed.

Lemma is_byteb_spec (b : Z) : is_byteb b = true <-> is_byte b.
Proof. unfold is_byteb, is_byte. rewrite andb_true_iff. lia. Qed.

Lemma index_is_true (f : list Z) (i v : Z) :
  index_is f i v = true <-> Py.index f i = Ok v.
Proof.
  unfold index_is. destruct (Py.index f i) as [x | e].
  - rewrite Z.eqb_eq. split; congruence.
  - split; discriminate.
Qed.

End PyFacts.

(** ** Results about the CRC8 engine *)

Section Crc8.

Lemma land_255_bits (x i : Z) :
  0 <= i -> Z.testbit (Z.land x 255) i = (i <? 8) && Z.testbit x i.
Proof.
  intros Hi. change 255 with (Z.ones 8).
  rewrite Z.land_ones by lia. rewrite Z.testbit_mod_pow2 by lia.
  reflexivity.
Qed.

Lemma land_255_range (x : Z) : 0 <= Z.land x 255 < 256.
Proof.
  change 255 with (Z.ones 8). rewrite Z.land_ones by lia.
  apply Z.mod_pos_bound. lia.
Qed.

Lemma land_255_byte (x : Z) : is_byte x -> Z.land x 255 = x.
Proof.
  intros Hx. change 255 with (Z.ones 8). rewrite Z.land_ones by lia.
  apply Z.mod_small. exact Hx.
Qed.

Lemma high_bit_test (c : Z) : (Z.land c 0x80 =? 0) = negb (Z.testbit c 7).
Proof.
  destruct (Z.testbit c 7) eqn:Hb; simpl.
  - apply Z.eqb_neq. intros H0.
    assert (Ht : Z.testbit (Z.land c 128) 7 = false) by (rewrite H0; apply Z.bits_0).
    rewrite Z.land_spec, Hb in Ht. discriminate Ht.
  - apply Z.eqb_eq. apply Z.bits_inj'. intros i Hi.
    rewrite Z.land_spec, Z.bits_0.
    destruct (Z.eq_dec i 7) as [-> | Hne].
    + rewrite Hb. reflexivity.
    + change 128 with (2 ^ 7). rewrite Z.pow2_bits_false by lia.
      apply andb_false_r.
Qed.

Lemma shiftl1_low8 (c : Z) :
  Z.land (Z.shiftl (Z.land c 255) 1) 255 = Z.land (Z.shiftl c 1) 255.
Proof.
  apply Z.bits_inj'. intros i Hi.
  rewrite !land_255_bits by lia. rewrite !Z.shiftl_spec by lia.
  destruct (Z.eq_dec i 0) as [-> | Hne].
  - rewrite !Z.testbit_neg_r by lia. reflexivity.
  - rewrite land_255_bits by lia.
    destruct (i <? 8) eqn:H8; [| reflexivity]. simpl.
    apply Z.ltb_lt in H8.
    replace (i - 1 <? 8) with true by (symmetry; apply Z.ltb_lt; lia).
    reflexivity.
Qed.

Lemma lxor_low8 (x k : Z) :
  Z.land (Z.lxor x k) 255 = Z.land (Z.lxor (Z.land x 255) k) 255.
Proof.
  apply Z.bits_inj'. intros i Hi.
  rewrite !land_255_bits, !Z.lxor_spec, land_255_bits by lia.
  destruct (i <? 8); reflexivity.
Qed.

(** One unmasked round of the source and one masked round of the
    reference agree on the low eight bits. *)
Lemma crc8_shift_low8 (c : Z) :
  Z.land (crc8_shift c) 255 = Reference.shift (Z.land c 255).
Proof.
  unfold crc8_shift, Reference.shift.
  rewrite high_bit_test, land_255_bits by lia.
  change (7 <? 8) with true. rewrite andb_true_l.
  destruct (Z.testbit c 7); cbn [negb].
  - change 0xFF with 255.
    rewrite (lxor_low8 (Z.shiftl c 1)), <- (shiftl1_low8 c), <- lxor_low8.
    reflexivity.
  - symmetry. apply shiftl1_low8.
Qed.

Lemma crc8_rounds_low8 (n : nat) (c : Z) :
  Z.land (crc8_rounds n c) 255 = Reference.rounds n (Z.land c 255).
Proof.
  revert c. induction n as [| n IH]; intros c; simpl.
  - reflexivity.
  - rewrite IH, crc8_shift_low8. reflexivity.
Qed.

Lemma crc8_byte_range (crc a : Z) : is_byte (_crc8_dvb_s2 crc a).
Proof. unfold _crc8_dvb_s2. apply land_255_range. Qed.

Lemma lxor_byte (a b : Z) : is_byte a -> is_byte b -> is_byte (Z.lxor a b).
Proof.
  intros Ha Hb. unfold is_byte in *. split.
  - apply Z.lxor_nonneg. lia.
  - destruct (Z.eq_dec (Z.lxor a b) 0) as [-> | Hne]; [lia |].
    apply Z.log2_lt_cancel. change (Z.log2 256) with 8.
    assert (Z.log2 a < 8).
    { destruct (Z.eq_dec a 0) as [-> | ?]; [simpl; lia |].
      apply Z.log2_lt_pow2; lia. }
    assert (Z.log2 b < 8).
    { destruct (Z.eq_dec b 0) as [-> | ?]; [simpl; lia |].
      apply Z.log2_lt_pow2; lia. }
    pose proof (Z.log2_lxor a b). lia.
Qed.

Lemma crc8_byte_refines (crc a : Z) :
  is_byte crc -> is_byte a -> _crc8_dvb_s2 crc a = Reference.crc8_byte crc a.
Proof.
  intros Hc Ha. unfold _crc8_dvb_s2, Reference.crc8_byte.
  change 0xFF with 255. rewrite crc8_rounds_low8.
  rewrite land_255_byte by (apply lxor_byte; assumption). reflexivity.
Qed.

Lemma crc8_fold_refines (data : list Z) (acc : Z) :
  is_byte acc -> Forall is_byte data ->
  fold_left _crc8_dvb_s2 data acc = fold_left Reference.crc8_byte data acc
  /\ is_byte (fold_left _crc8_dvb_s2 data acc).
Proof.
  intros Hacc Hdata. revert acc Hacc.
  induction Hdata as [| a data Ha Hdata IH]; intros acc Hacc; simpl.
  - split; [reflexivity | exact Hacc].
  - rewrite <- crc8_byte_refines by assumption.
    apply IH. apply crc8_byte_range.
Qed.

Lemma crc8_data_range (data : list Z) : is_byte (_crc8_data data).
Proof.
  unfold _crc8_data.
  destruct data as [| a data] using rev_ind.
  - simpl. unfold is_byte. lia.
  - rewrite fold_left_app. simpl. apply crc8_byte_range.
Qed.

(** C4. For every byte sequence the CRC8 of the source lies in [0, 255]
    and equals the DVB-S2 reference definition (accumulator from 0, each
    byte XORed in, eight shift rounds with polynomial 0xD5 on a set high
    bit, reduced to eight bits); the CRC8 of the empty sequence is 0. *)
Theorem crc8_matches_reference (data : list Z) :
  Forall is_byte data ->
  0 <= _crc8_data data <= 255
  /\ _crc8_data data = Reference.crc8 data
  /\ _crc8_data [] = 0.
Proof.
  intros Hdata.
  destruct (crc8_fold_refines data 0) as [Heq Hrange];
    [unfold is_byte; lia | exact Hdata |].
  unfold _crc8_data, Reference.crc8.
  split; [unfold is_byte in Hrange; lia |].
  split; [exact Heq | reflexivity].
Qed.

Lemma crc8_matches_reference_witness :
  Forall is_byte [0x14; 50; 60; 90; 10]
  /\ 0 <= _crc8_data [0x14; 50; 60; 90; 10] <= 255
  /\ _crc8_data [0x14; 50; 60; 90; 10] = Reference.crc8 [0x14; 50; 60; 90; 10]
  /\ _crc8_data [] = 0.
Proof.
  assert (H : Forall is_byte [0x14; 50; 60; 90; 10])
    by (repeat constructor; unfold is_byte; lia).
  split; [exact H |].
  exact (crc8_matches_reference [0x14; 50; 60; 90; 10] H).
Defined.

End Crc8.

(** ** Frame validator and telemetry encoder *)

Section Frames.

Lemma build_frame_shape (type : Z) (payload : list Z) :
  build_frame type payload =
  CRSF_TELEMETRY_SYNC :: (Py.len payload + 2) :: (type :: payload)
    ++ [_crc8_data (type :: payload)].
Proof.
  unfold build_frame. cbn [app].
  rewrite slice_from by lia. reflexivity.
Qed.

Lemma build_frame_len (type : Z) (payload : list Z) :
  Py.len (build_frame type payload) = Py.len payload + 4.
Proof.
  rewrite build_frame_shape. unfold Py.len. cbn [length].
  rewrite length_app. cbn [length]. lia.
Qed.

Lemma validate_build_frame (type : Z) (payload : list Z) :
  _validate_frame (build_frame type payload) = Ok true.
Proof.
  rewrite build_frame_shape. unfold _validate_frame.
  rewrite slice_body.
  rewrite !app_comm_cons, index_last, Z.eqb_refl. reflexivity.
Qed.

Lemma build_frame_bytes (type : Z) (payload : list Z) :
  is_byte type -> Forall is_byte payload -> Py.len payload + 4 <= 64 ->
  Forall is_byte (build_frame type payload).
Proof.
  intros Ht Hp Hlen. rewrite build_frame_shape.
  pose proof (len_nonneg payload).
  repeat first [apply Forall_cons; split | apply Forall_app; split].
  - unfold is_byte, CRSF_TELEMETRY_SYNC. lia.
  - unfold is_byte. lia.
  - exact Ht.
  - exact Hp.
  - apply crc8_data_range.
  - constructor.
Qed.

(** A built frame is one the synchronizer admits and the validator
    accepts. *)
Lemma build_frame_valid (type : Z) (payload : list Z) :
  is_byte type -> Forall is_byte payload -> Py.len payload + 4 <= 64 ->
  valid_frame (build_frame type payload) = true.
Proof.
  intros Ht Hp Hlen. unfold valid_frame.
  pose proof (build_frame_bytes type payload Ht Hp Hlen) as Hb.
  rewrite validate_build_frame, build_frame_len.
  pose proof (len_nonneg payload).
  rewrite !andb_true_iff.
  refine (conj (conj (conj (conj (conj _ _) _) _) _) _); [| | | | | reflexivity].
  - apply forallb_forall. intros x Hx. apply is_byteb_spec.
    rewrite Forall_forall in Hb. apply Hb. apply list_elem_of_In. exact Hx.
  - apply Z.leb_le. lia.
  - apply Z.leb_le. lia.
  - rewrite build_frame_shape. reflexivity.
  - rewrite build_frame_shape. unfold index_is, Py.index.
    cbn [Z.ltb Z.compare]. 
    replace (Py.len payload + 4 - 2) with (Py.len payload + 2) by lia.
    set (l := _ :: _).
    replace (Py.len l <=? 1) with false.
    + cbn. apply Z.eqb_refl.
    + symmetry. apply Z.leb_gt. subst l. unfold Py.len. cbn [length]. lia.
Qed.

(** C5. Round trip: for every type byte and every payload of bytes with
    [2 + len(payload) + 2 <= 64], the frame built as sync, LENGTH, type,
    payload and the CRC8 of type and payload passes the validator, and is
    a frame the synchronizer admits. *)
Theorem frame_round_trip (type : Z) (payload : list Z) :
  is_byte type -> Forall is_byte payload -> 2 + Py.len payload + 2 <= 64 ->
  _validate_frame (build_frame type payload) = Ok true
  /\ build_frame type payload =
       [CRSF_SYNC; Py.len payload + 2; type] ++ payload
         ++ [_crc8_data ([type] ++ payload)]
  /\ valid_frame (build_frame type payload) = true.
Proof.
  intros Ht Hp Hlen. split; [apply validate_build_frame |]. split.
  - apply build_frame_shape.
  - apply build_frame_valid; [exact Ht | exact Hp | lia].
Qed.

Lemma frame_round_trip_witness :
  is_byte 0x14 /\ Forall is_byte [50; 60; 90; 10]
  /\ 2 + Py.len [50; 60; 90; 10] + 2 <= 64
  /\ _validate_frame (build_frame 0x14 [50; 60; 90; 10]) = Ok true.
Proof.
  assert (Ht : is_byte 0x14) by (unfold is_byte; lia).
  assert (Hp : Forall is_byte [50; 60; 90; 10])
    by (repeat constructor; unfold is_byte; lia).
  assert (Hl : 2 + Py.len [50; 60; 90; 10] + 2 <= 64) by (vm_compute; discriminate).
  split; [exact Ht |]. split; [exact Hp |]. split; [exact Hl |].
  exact (proj1 (frame_round_trip 0x14 [50; 60; 90; 10] Ht Hp Hl)).
Defined.

End Frames.

(** ** Payload decoders *)

Section Decoders.

Lemma range_elem (n : nat) (i : Z) : i ∈ Py.range n <-> 0 <= i < Z.of_nat n.
Proof.
  unfold Py.range. rewrite list_elem_of_fmap. split.
  - intros (k & -> & Hk). apply elem_of_seq in Hk. lia.
  - intros Hi. exists (Z.to_nat i). split; [lia |].
    apply elem_of_seq. lia.
Qed.

Lemma range_NoDup (n : nat) : NoDup (Py.range n).
Proof.
  unfold Py.range. apply NoDup_fmap_2; [| apply NoDup_seq].
  intros a b Hab. lia.
Qed.

Lemma to_us_checked : forallb to_us_agrees (Py.range 2048) = true.
Proof. vm_compute. reflexivity. Qed.

(** Binary64 rounding never takes [v * 0.62 + 881] across an integer:
    the truncation is the exact floor on the whole 11-bit range. *)
Lemma to_us_exact (v : Z) : 0 <= v <= 2047 -> to_us v = Ok (us_floor v).
Proof.
  intros Hv. pose proof to_us_checked as Hall.
  rewrite forallb_forall in Hall.
  specialize (Hall v). unfold to_us_agrees in Hall.
  destruct (to_us v) as [u | e].
  - f_equal. apply Z.eqb_eq. apply Hall.
    apply list_elem_of_In. apply range_elem. lia.
  - discriminate Hall.
    apply list_elem_of_In. apply range_elem. lia.
Qed.

Lemma us_floor_range (v : Z) : 0 <= v <= 2047 -> 881 <= us_floor v <= 2150.
Proof.
  intros Hv. unfold us_floor. split.
  - apply Z.div_le_lower_bound; lia.
  - apply Z.lt_succ_r. apply Z.div_lt_upper_bound; lia.
Qed.

Lemma land_7FF_range (x : Z) : 0 <= Z.land x 0x07FF <= 2047.
Proof.
  change (Z.land x 0x07FF) with (Z.land x (Z.ones 11)).
  rewrite Z.land_ones by lia. change (2 ^ 11) with 2048. pose proof (Z.mod_pos_bound x 2048). lia.
Qed.

Lemma raw_channel_range (cd : list Z) (i v : Z) :
  raw_channel cd i = Ok v -> 0 <= v <= 2047.
Proof.
  unfold raw_channel. intros H.
  repeat match type of H with
         | context [match ?x with _ => _ end] => destruct x; try discriminate H
         end.
  all: injection H as <-; apply land_7FF_range.
Qed.

(** The unguarded first read decides whether a channel can be read. *)
Lemma raw_channel_raises (cd : list Z) (i : Z) :
  Py.len cd <= i * 11 / 8 -> raw_channel cd i = Raise IndexError.
Proof.
  intros H. unfold raw_channel. rewrite index_out_of_range by exact H.
  reflexivity.
Qed.

Lemma raw_channel_total (cd : list Z) (i : Z) :
  0 <= i -> i * 11 / 8 < Py.len cd -> exists v, raw_channel cd i = Ok v.
Proof.
  intros Hi H. unfold raw_channel.
  assert (H0 : 0 <= i * 11 / 8) by (apply Z.div_pos; lia).
  destruct (index_lookup cd (i * 11 / 8)) as (b0 & _ & ->); [lia |].
  destruct (i * 11 / 8 + 1 <? Py.len cd) eqn:H1.
  - apply Z.ltb_lt in H1.
    destruct (index_lookup cd (i * 11 / 8 + 1)) as (b1 & _ & ->); [lia |].
    destruct (i * 11 / 8 + 2 <? Py.len cd) eqn:H2.
    + apply Z.ltb_lt in H2.
      destruct (index_lookup cd (i * 11 / 8 + 2)) as (b2 & _ & ->); [lia |].
      eexists. reflexivity.
    + eexists. reflexivity.
  - destruct (i * 11 / 8 + 2 <? Py.len cd) eqn:H2.
    + apply Z.ltb_lt in H2. apply Z.ltb_ge in H1. lia.
    + eexists. reflexivity.
Qed.

Lemma raw_channel_cases (cd : list Z) (i : Z) :
  0 <= i ->
  (exists v, raw_channel cd i = Ok v /\ 0 <= v <= 2047 /\ i * 11 / 8 < Py.len cd)
  \/ (raw_channel cd i = Raise IndexError /\ Py.len cd <= i * 11 / 8).
Proof.
  intros Hi. destruct (Z_lt_le_dec (i * 11 / 8) (Py.len cd)) as [Hlt | Hge].
  - left. destruct (raw_channel_total cd i Hi Hlt) as [v Hv].
    exists v. split; [exact Hv |]. split; [| exact Hlt].
    apply (raw_channel_range cd i). exact Hv.
  - right. split; [apply raw_channel_raises |]; exact Hge.
Qed.

(** Bytes past the end of the data count as zero in the two guarded
    reads. *)
Lemma raw_channel_zero_padding (cd : list Z) (i : Z) :
  0 <= i -> i * 11 / 8 < Py.len cd ->
  raw_channel cd i = raw_channel (cd ++ [0; 0]) i.
Proof.
  intros Hi H. unfold raw_channel.
  assert (H0 : 0 <= i * 11 / 8) by (apply Z.div_pos; lia).
  set (b := i * 11 / 8) in *.
  rewrite len_app. change (Py.len [0; 0]) with 2.
  rewrite (index_app_l cd [0; 0] b) by lia.
  destruct (index_lookup cd b) as (b0 & _ & ->); [lia |].
  replace (b + 1 <? Py.len cd + 2) with true by (symmetry; apply Z.ltb_lt; lia).
  replace (b + 2 <? Py.len cd + 2) with true by (symmetry; apply Z.ltb_lt; lia).
  assert (Hpad : forall j, Py.len cd <= j < Py.len cd + 2 ->
                           Py.index (cd ++ [0; 0]) j = Ok 0).
  { intros j Hj.
    destruct (index_lookup (cd ++ [0; 0]) j) as (x & Hx & ->).
    { rewrite len_app. change (Py.len [0; 0]) with 2. pose proof (len_nonneg cd). lia. }
    rewrite lookup_app_r in Hx by (unfold Py.len in Hj; lia).
    assert (Hc : (Z.to_nat j - length cd = 0 \/ Z.to_nat j - length cd = 1)%nat)
      by (unfold Py.len in Hj; lia).
    destruct Hc as [Hc | Hc]; rewrite Hc in Hx; cbn in Hx; congruence. }
  destruct (b + 1 <? Py.len cd) eqn:H1.
  - apply Z.ltb_lt in H1. rewrite (index_app_l cd [0; 0] (b + 1)) by lia.
    destruct (index_lookup cd (b + 1)) as (b1 & _ & ->); [lia |].
    destruct (b + 2 <? Py.len cd) eqn:H2.
    + apply Z.ltb_lt in H2. rewrite (index_app_l cd [0; 0] (b + 2)) by lia.
      reflexivity.
    + apply Z.ltb_ge in H2. rewrite (Hpad (b + 2)) by lia.
      rewrite Z.shiftl_0_l, Z.lor_0_r. reflexivity.
  - apply Z.ltb_ge in H1. rewrite (Hpad (b + 1)) by lia.
    replace (b + 2 <? Py.len cd) with false by (symmetry; apply Z.ltb_ge; lia).
    rewrite (Hpad (b + 2)) by lia.
    rewrite !Z.shiftl_0_l, !Z.lor_0_r. reflexivity.
Qed.

(** *** The 11-bit fields *)

Lemma byte_testbit_high (b n : Z) : is_byte b -> 8 <= n -> Z.testbit b n = false.
Proof.
  intros Hb Hn. rewrite <- (land_255_byte b Hb), land_255_bits by lia.
  replace (n <? 8) with false by (symmetry; apply Z.ltb_ge; lia).
  reflexivity.
Qed.

Lemma le_value_nonneg_bits (l : list Z) (n : Z) :
  Forall is_byte l -> 0 <= n ->
  Z.testbit (le_value l) n =
  match l !! Z.to_nat (n / 8) with
  | Some b => Z.testbit b (n mod 8)
  | None => false
  end.
Proof.
  intros Hl. revert n. induction Hl as [| b l Hb Hl IH]; intros n Hn.
  - cbn. apply Z.bits_0.
  - cbn [le_value foldr]. fold (le_value l).
    rewrite Z.lor_spec, Z.shiftl_spec by lia.
    destruct (Z_lt_le_dec n 8) as [Hlt | Hge].
    + rewrite (Z.testbit_neg_r _ (n - 8)) by lia. rewrite orb_false_r.
      replace (n / 8) with 0 by (Z.div_mod_to_equations; lia).
      replace (n mod 8) with n by (Z.div_mod_to_equations; lia).
      reflexivity.
    + rewrite (byte_testbit_high b n Hb Hge), orb_false_l.
      rewrite IH by lia.
      replace (Z.to_nat (n / 8)) with (S (Z.to_nat ((n - 8) / 8)))
        by (Z.div_mod_to_equations; lia).
      replace ((n - 8) mod 8) with (n mod 8) by (Z.div_mod_to_equations; lia).
      reflexivity.
Qed.

Lemma le_value_zero_padding (l : list Z) : le_value (l ++ [0; 0]) = le_value l.
Proof.
  unfold le_value. rewrite foldr_app. reflexivity.
Qed.

Lemma land_7FF_bits (x j : Z) :
  0 <= j -> Z.testbit (Z.land x 0x07FF) j = (j <? 11) && Z.testbit x j.
Proof.
  intros Hj. change 0x07FF with (Z.ones 11).
  rewrite Z.land_ones by lia. rewrite Z.testbit_mod_pow2 by lia. reflexivity.
Qed.

(** With its three bytes in place, the window of channel [i] is read
    whole. *)
Lemma raw_channel_window (cd : list Z) (i k b0 b1 b2 : Z) :
  k = i * 11 / 8 -> 0 <= k ->
  cd !! Z.to_nat k = Some b0 ->
  cd !! Z.to_nat (k + 1) = Some b1 ->
  cd !! Z.to_nat (k + 2) = Some b2 ->
  raw_channel cd i =
  Ok (Z.land
        (Z.shiftr (Z.lor (Z.lor b0 (Z.shiftl b1 8)) (Z.shiftl b2 16))
           (i * 11 mod 8))
        0x07FF).
Proof.
  intros -> Hk H0 H1 H2. unfold raw_channel.
  assert (Hlen : i * 11 / 8 + 2 < Py.len cd).
  { apply lookup_lt_Some in H2. unfold Py.len. lia. }
  destruct (index_lookup cd (i * 11 / 8)) as (x0 & Hx0 & ->); [lia |].
  destruct (index_lookup cd (i * 11 / 8 + 1)) as (x1 & Hx1 & ->); [lia |].
  destruct (index_lookup cd (i * 11 / 8 + 2)) as (x2 & Hx2 & ->); [lia |].
  replace (i * 11 / 8 + 1 <? Py.len cd) with true by (symmetry; apply Z.ltb_lt; lia).
  replace (i * 11 / 8 + 2 <? Py.len cd) with true by (symmetry; apply Z.ltb_lt; lia).
  congruence.
Qed.

(** What [raw_channel] extracts is the 11-bit field of the payload read as
    one little-endian number, bytes past the end reading as zero. *)
Lemma raw_channel_field (cd : list Z) (i : Z) :
  Forall is_byte cd -> 0 <= i -> i * 11 / 8 < Py.len cd ->
  raw_channel cd i = Ok (spec_field cd i).
Proof.
  intros Hcd Hi Hlen.
  rewrite raw_channel_zero_padding by assumption.
  unfold spec_field. rewrite <- (le_value_zero_padding cd).
  assert (Hpad : Forall is_byte (cd ++ [0; 0])).
  { apply Forall_app. split; [exact Hcd |].
    repeat constructor; unfold is_byte; lia. }
  set (l := cd ++ [0; 0]) in *.
  assert (Hl : i * 11 / 8 + 2 < Py.len l).
  { subst l. rewrite len_app. change (Py.len [0; 0]) with 2. lia. }
  assert (Hk : 0 <= i * 11 / 8) by (apply Z.div_pos; lia).
  set (k := i * 11 / 8) in *.
  destruct (index_lookup l k) as (b0 & H0 & _); [lia |].
  destruct (index_lookup l (k + 1)) as (b1 & H1 & _); [lia |].
  destruct (index_lookup l (k + 2)) as (b2 & H2 & _); [lia |].
  rewrite (raw_channel_window l i k b0 b1 b2) by (try assumption; reflexivity).
  assert (Hb0 : is_byte b0)
    by (rewrite Forall_forall in Hpad; eapply Hpad, list_elem_of_lookup_2, H0).
  assert (Hb1 : is_byte b1)
    by (rewrite Forall_forall in Hpad; eapply Hpad, list_elem_of_lookup_2, H1).
  assert (Hb2 : is_byte b2)
    by (rewrite Forall_forall in Hpad; eapply Hpad, list_elem_of_lookup_2, H2).
  f_equal. apply Z.bits_inj'. intros j Hj.
  rewrite !land_7FF_bits by lia.
  destruct (j <? 11) eqn:Hj11; [| reflexivity]. apply Z.ltb_lt in Hj11.
  cbn [andb].
  assert (Hbit : 0 <= i * 11 mod 8 < 8) by (apply Z.mod_pos_bound; lia).
  rewrite !Z.shiftr_spec by lia.
  rewrite (le_value_nonneg_bits l (j + i * 11) Hpad) by lia.
  rewrite !Z.lor_spec, !Z.shiftl_spec by lia.
  set (m := j + i * 11 mod 8).
  assert (Hm : 0 <= m < 18) by (subst m; lia).
  assert (Hsplit : j + i * 11 = 8 * k + m).
  { subst m k. pose proof (Z.div_mod (i * 11) 8). lia. }
  rewrite Hsplit.
  destruct (Z_lt_le_dec m 8) as [Hlt8 | Hge8];
    [| destruct (Z_lt_le_dec m 16) as [Hlt16 | Hge16]].
  - rewrite (Z.testbit_neg_r _ (m - 8)), (Z.testbit_neg_r _ (m - 16)) by lia.
    rewrite !orb_false_r.
    replace ((8 * k + m) / 8) with k by (Z.div_mod_to_equations; lia).
    replace ((8 * k + m) mod 8) with m by (Z.div_mod_to_equations; lia).
    rewrite H0. reflexivity.
  - rewrite (byte_testbit_high b0 m Hb0) by lia.
    rewrite (Z.testbit_neg_r _ (m - 16)) by lia.
    rewrite orb_false_l, orb_false_r.
    replace ((8 * k + m) / 8) with (k + 1) by (Z.div_mod_to_equations; lia).
    replace ((8 * k + m) mod 8) with (m - 8) by (Z.div_mod_to_equations; lia).
    rewrite H1. reflexivity.
  - rewrite (byte_testbit_high b0 m Hb0) by lia.
    rewrite (byte_testbit_high b1 (m - 8) Hb1) by lia.
    rewrite !orb_false_l.
    replace ((8 * k + m) / 8) with (k + 2) by (Z.div_mod_to_equations; lia).
    replace ((8 * k + m) mod 8) with (m - 16) by (Z.div_mod_to_equations; lia).
    rewrite H2. reflexivity.
Qed.

(** *** The decoding loop *)

Lemma decode_channel_cases (cd : list Z) (i : Z) (r : CRSFReceiver) :
  decode_channel cd i r =
  match raw_channel cd i with
  | Ok v =>
      match to_us v with
      | Ok u => (Ok tt, set_channel (i + 1) u r)
      | Raise e => (Raise e, r)
      end
  | Raise e => (Raise e, r)
  end.
Proof.
  unfold decode_channel, bind, lift, modify.
  destruct (raw_channel cd i) as [v | e]; [| reflexivity].
  destruct (to_us v) as [u | e]; reflexivity.
Qed.

Lemma for_each_cons (i : Z) (l : list Z) (body : Z -> M unit) (r : CRSFReceiver) :
  for_each (i :: l) body r =
  match body i r with
  | (Ok _, r1) => for_each l body r1
  | (Raise e, r1) => (Raise e, r1)
  end.
Proof. reflexivity. Qed.

(** Every channel whose first byte exists is decoded and stored. *)
Lemma decode_loop_ok (cd : list Z) (l : list Z) :
  NoDup l ->
  (forall i, i ∈ l -> 0 <= i /\ i * 11 / 8 < Py.len cd) ->
  forall r, exists r',
    for_each l (decode_channel cd) r = (Ok tt, r')
    /\ input_buffer r' = input_buffer r
    /\ link_stats r' = link_stats r
    /\ (forall i, i ∈ l ->
          exists v, raw_channel cd i = Ok v
                    /\ channels r' !! (i + 1) = Some (us_floor v))
    /\ (forall k, (forall i, i ∈ l -> k <> i + 1) ->
          channels r' !! k = channels r !! k).
Proof.
  induction l as [| i l IH]; intros Hnd Hl r.
  - exists r. cbn. repeat split; try reflexivity.
    intros i Hi. inversion Hi.
  - apply NoDup_cons in Hnd as [Hni Hnd].
    destruct (Hl i) as [Hi0 Hilen]; [left |].
    destruct (raw_channel_total cd i Hi0 Hilen) as [v Hv].
    pose proof (raw_channel_range cd i v Hv) as Hvr.
    destruct (IH Hnd (fun j Hj => Hl j (list_elem_of_further _ _ _ Hj))
                (set_channel (i + 1) (us_floor v) r))
      as (r' & Hrun & Hbuf & Hls & Hin & Hout).
    exists r'. rewrite for_each_cons, decode_channel_cases, Hv, to_us_exact by exact Hvr.
    split; [exact Hrun |]. split; [exact Hbuf |]. split; [exact Hls |]. split.
    + intros j Hj. apply elem_of_cons in Hj as [-> | Hj].
      * exists v. split; [exact Hv |].
        rewrite Hout.
        -- cbn. apply lookup_insert_eq.
        -- intros j Hj Heq. assert (i = j) by lia. subst j. contradiction.
      * apply Hin. exact Hj.
    + intros k Hk. rewrite Hout.
      * cbn. apply lookup_insert_ne. intros Heq. apply (Hk i); [left | lia].
      * intros j Hj. apply Hk. right. exact Hj.
Qed.

(** One channel whose first byte is missing makes the whole loop raise. *)
Lemma decode_loop_raises (cd : list Z) (l : list Z) :
  (forall i, i ∈ l -> 0 <= i) ->
  (exists i, i ∈ l /\ Py.len cd <= i * 11 / 8) ->
  forall r, fst (for_each l (decode_channel cd) r) = Raise IndexError.
Proof.
  induction l as [| i l IH]; intros Hl (j & Hj & Hshort) r.
  - inversion Hj.
  - rewrite for_each_cons, decode_channel_cases.
    destruct (raw_channel_cases cd i) as [(v & Hv & Hvr & Hlen) | [Hraise _]].
    + apply Hl. left.
    + rewrite Hv, to_us_exact by exact Hvr.
      apply IH.
      * intros k Hk. apply Hl. right. exact Hk.
      * exists j. split; [| exact Hshort].
        apply elem_of_cons in Hj as [-> | Hj]; [lia | exact Hj].
    + rewrite Hraise. reflexivity.
Qed.

Lemma channel_key_elem (k : Z) : k ∈ channel_keys <-> 1 <= k <= 16.
Proof.
  unfold channel_keys. rewrite elem_of_list_to_set, list_elem_of_fmap. split.
  - intros (n & -> & Hn). apply elem_of_seq in Hn. lia.
  - intros Hk. exists (Z.to_nat k). split; [lia |]. apply elem_of_seq. lia.
Qed.

Lemma set_channel_ok (k u : Z) (r : CRSFReceiver) :
  1 <= k <= 16 -> 881 <= u <= 2150 ->
  channels_ok (channels r) -> channels_ok (channels (set_channel k u r)).
Proof.
  intros Hk Hu [Hdom Hval]. unfold channels_ok. cbn. split.
  - rewrite dom_insert_L, Hdom. apply subseteq_union_1_L.
    apply singleton_subseteq_l. apply channel_key_elem. exact Hk.
  - apply map_Forall_insert_2; [right; exact Hu | exact Hval].
Qed.

(** Whether the loop finishes or raises part way, the mapping keeps its
    keys and its value range, and nothing else of the receiver moves. *)
Lemma decode_loop_inv (cd : list Z) (l : list Z) :
  (forall i, i ∈ l -> 0 <= i < 16) ->
  forall r,
    input_buffer (snd (for_each l (decode_channel cd) r)) = input_buffer r
    /\ link_stats (snd (for_each l (decode_channel cd) r)) = link_stats r
    /\ (channels_ok (channels r) ->
        channels_ok (channels (snd (for_each l (decode_channel cd) r)))).
Proof.
  induction l as [| i l IH]; intros Hl r.
  - cbn. auto.
  - rewrite for_each_cons, decode_channel_cases.
    assert (Hi : 0 <= i < 16) by (apply Hl; left).
    destruct (raw_channel_cases cd i) as [(v & Hv & Hvr & _) | [Hraise _]]; [lia | |].
    + rewrite Hv, to_us_exact by exact Hvr.
      destruct (IH (fun j Hj => Hl j (list_elem_of_further _ _ _ Hj))
                  (set_channel (i + 1) (us_floor v) r)) as (Hb & Hs & Hc).
      split; [exact Hb |]. split; [exact Hs |].
      intros Hok. apply Hc. apply set_channel_ok; [lia | | exact Hok].
      apply us_floor_range. exact Hvr.
    + rewrite Hraise. cbn. auto.
Qed.

Lemma decode_channels_data_len (data : list Z) :
  Py.len (Py.slice data (Some 3) None) = Z.max 0 (Py.len data - 3).
Proof.
  rewrite slice_from by lia. unfold Py.len. rewrite length_drop. lia.
Qed.

(** [_decode_channels] finishes on frames of 24 bytes or more and raises
    [IndexError] on every shorter one. *)
Lemma decode_channels_outcome (data : list Z) (r : CRSFReceiver) :
  fst (_decode_channels data r) =
  if 24 <=? Py.len data then Ok tt else Raise IndexError.
Proof.
  unfold _decode_channels.
  destruct (24 <=? Py.len data) eqn:Hlen.
  - apply Z.leb_le in Hlen.
    destruct (decode_loop_ok (Py.slice data (Some 3) None) (Py.range 16))
      with (r := r) as (r' & -> & _).
    + apply range_NoDup.
    + intros i Hi. apply range_elem in Hi. rewrite decode_channels_data_len.
      split; [lia |].
      assert (i * 11 / 8 < 21) by (apply Z.div_lt_upper_bound; lia). lia.
    + reflexivity.
  - apply Z.leb_gt in Hlen. apply decode_loop_raises.
    + intros i Hi. apply range_elem in Hi. lia.
    + exists 15. split; [apply range_elem; lia |].
      rewrite decode_channels_data_len. change (15 * 11 / 8) with 20. lia.
Qed.

Lemma decode_link_stats_inv (data : list Z) (r : CRSFReceiver) :
  input_buffer (snd (_decode_link_stats data r)) = input_buffer r
  /\ channels (snd (_decode_link_stats data r)) = channels r.
Proof.
  unfold _decode_link_stats, bind, lift, modify.
  destruct (Py.index data 3); [| cbn; auto].
  destruct (Py.index data 4); [| cbn; auto].
  destruct (Py.index data 5); [| cbn; auto].
  destruct (Py.index data 6); cbn; auto.
Qed.

Lemma handle_packet_buffer (t : Z) (data : list Z) (r : CRSFReceiver) :
  input_buffer (snd (_handle_packet t data r)) = input_buffer r.
Proof.
  unfold _handle_packet.
  destruct (t =? value RC_CHANNELS_PACKED).
  - unfold _decode_channels. apply decode_loop_inv.
    intros i Hi. apply range_elem in Hi. lia.
  - destruct (t =? value LINK_STATISTICS).
    + apply decode_link_stats_inv.
    + reflexivity.
Qed.

Lemma handle_packet_channels_ok (t : Z) (data : list Z) (r : CRSFReceiver) :
  channels_ok (channels r) ->
  channels_ok (channels (snd (_handle_packet t data r))).
Proof.
  intros Hok. unfold _handle_packet.
  destruct (t =? value RC_CHANNELS_PACKED).
  - unfold _decode_channels. apply decode_loop_inv; [| exact Hok].
    intros i Hi. apply range_elem in Hi. lia.
  - destruct (t =? value LINK_STATISTICS).
    + destruct (decode_link_stats_inv data r) as [_ ->]. exact Hok.
    + exact Hok.
Qed.

Lemma handle_packet_other (t : Z) (data : list Z) (r : CRSFReceiver) :
  t <> value RC_CHANNELS_PACKED -> t <> value LINK_STATISTICS ->
  _handle_packet t data r = (Ok tt, r).
Proof.
  intros H1 H2. unfold _handle_packet.
  apply Z.eqb_neq in H1, H2. rewrite H1, H2. reflexivity.
Qed.

End Decoders.

(** ** Frame synchronizer *)

Section Synchronizer.

Lemma set_input_buffer_same (r : CRSFReceiver) :
  set_input_buffer (input_buffer r) r = r.
Proof. destruct r. reflexivity. Qed.

Lemma set_input_buffer_twice (b1 b2 : list Z) (r : CRSFReceiver) :
  set_input_buffer b1 (set_input_buffer b2 r) = set_input_buffer b1 r.
Proof. reflexivity. Qed.

Lemma candidate_frame_inv (f : list Z) :
  candidate_frame f = true ->
  4 <= Py.len f <= 64
  /\ Py.index f 0 = Ok CRSF_SYNC
  /\ Py.index f 1 = Ok (Py.len f - 2).
Proof.
  unfold candidate_frame. rewrite !andb_true_iff, !index_is_true, !Z.leb_le.
  tauto.
Qed.

Lemma valid_frame_inv (f : list Z) :
  valid_frame f = true ->
  candidate_frame f = true /\ _validate_frame f = Ok true /\ Forall is_byte f.
Proof.
  unfold valid_frame, candidate_frame. rewrite !andb_true_iff.
  intros [[[[[Hb H4] H64] H0] H1] Hv]. split; [tauto |]. split.
  - destruct (_validate_frame f) as [[|] | e]; try discriminate Hv. reflexivity.
  - apply Forall_forall. intros x Hx. apply is_byteb_spec.
    rewrite forallb_forall in Hb. apply Hb. apply list_elem_of_In. exact Hx.
Qed.

Lemma valid_frame_type (f : list Z) :
  valid_frame f = true -> exists t, f !! 2%nat = Some t /\ Py.index f 2 = Ok t.
Proof.
  intros Hf. apply valid_frame_inv in Hf as [Hc _].
  apply candidate_frame_inv in Hc as [Hlen _].
  apply (index_lookup f 2). lia.
Qed.

(** *** One pass of the loop *)

Lemma update_step_short (r : CRSFReceiver) :
  Py.len (input_buffer r) <= 2 -> update_step r = Stop.
Proof.
  intros H. unfold update_step.
  replace (2 <? Py.len (input_buffer r)) with false
    by (symmetry; apply Z.ltb_ge; exact H).
  reflexivity.
Qed.

(** A head byte that is not the sync byte is dropped, alone. *)
Lemma update_step_drop (r : CRSFReceiver) (b : Z) (rest : list Z) :
  input_buffer r = b :: rest -> 2 <= Py.len rest -> b <> CRSF_SYNC ->
  update_step r = Skip (set_input_buffer rest r).
Proof.
  intros Hbuf Hlen Hb. unfold update_step. rewrite Hbuf.
  replace (2 <? Py.len (b :: rest)) with true
    by (symmetry; apply Z.ltb_lt; unfold Py.len in *; cbn [length]; lia).
  cbn [negb].
  assert (Hi : Py.index (b :: rest) 0 = Ok b).
  { destruct (index_lookup (b :: rest) 0) as (x & Hx & ->).
    - unfold Py.len in *. cbn [length]. lia.
    - change (Some b = Some x) in Hx. congruence. }
  rewrite Hi. apply Z.eqb_neq in Hb. rewrite Hb. reflexivity.
Qed.

(** A complete candidate frame at the head is cut off and validated. *)
Lemma update_step_frame (r : CRSFReceiver) (f rest : list Z) :
  input_buffer r = f ++ rest -> candidate_frame f = true ->
  update_step r =
  match _validate_frame f with
  | Raise e => Abort e (set_input_buffer rest r)
  | Ok false => Skip (set_input_buffer rest r)
  | Ok true =>
      match Py.index f 2 with
      | Raise e => Abort e (set_input_buffer rest r)
      | Ok t => Handle f (_handle_packet t f (set_input_buffer rest r))
      end
  end.
Proof.
  intros Hbuf Hf. apply candidate_frame_inv in Hf as (Hlen & H0 & H1).
  pose proof (len_nonneg rest) as Hrest.
  unfold update_step. rewrite Hbuf, len_app.
  replace (2 <? Py.len f + Py.len rest) with true by (symmetry; apply Z.ltb_lt; lia).
  cbn [negb]. rewrite !index_app_l, H0, H1 by lia.
  rewrite Z.eqb_refl. cbn [negb].
  replace (Py.len f - 2 + 2) with (Py.len f) by lia.
  replace (64 <? Py.len f) with false by (symmetry; apply Z.ltb_ge; lia).
  replace (Py.len f <? 4) with false by (symmetry; apply Z.ltb_ge; lia).
  replace (Py.len f <=? Py.len f + Py.len rest) with true
    by (symmetry; apply Z.leb_le; lia).
  cbn [orb].
  assert (Hcut : Py.slice (f ++ rest) None (Some (Py.len f)) = f).
  { rewrite slice_to by lia. unfold Py.len. rewrite Nat2Z.id.
    apply take_app_length. }
  assert (Hleft : Py.slice (f ++ rest) (Some (Py.len f)) None = rest).
  { rewrite slice_from by lia. unfold Py.len. rewrite Nat2Z.id.
    apply drop_app_length. }
  rewrite Hcut, Hleft. reflexivity.
Qed.

Lemma index_take (l : list Z) (n : nat) (i : Z) :
  0 <= i < Z.of_nat n -> (n <= length l)%nat ->
  Py.index (take n l) i = Py.index l i.
Proof.
  intros Hi Hn.
  pose proof (index_app_l (take n l) (drop n l) i) as H.
  rewrite take_drop in H. symmetry. apply H.
  unfold Py.len. rewrite length_take. lia.
Qed.

(** The head of a frame that has not arrived in full stays in the buffer. *)
Lemma update_step_partial (r : CRSFReceiver) (f : list Z) (n : nat) :
  input_buffer r = take n f -> candidate_frame f = true -> (n < length f)%nat ->
  update_step r = Stop.
Proof.
  intros Hbuf Hf Hn. apply candidate_frame_inv in Hf as (Hlen & H0 & H1).
  assert (Hl : Py.len (take n f) = Z.of_nat n)
    by (unfold Py.len; rewrite length_take; lia).
  destruct (Z_le_gt_dec (Z.of_nat n) 2) as [Hle | Hgt].
  - apply update_step_short. rewrite Hbuf, Hl. exact Hle.
  - unfold update_step. rewrite Hbuf, Hl.
    replace (2 <? Z.of_nat n) with true by (symmetry; apply Z.ltb_lt; lia).
    cbn [negb].
    rewrite !index_take, H0, H1 by lia.
    rewrite Z.eqb_refl. cbn [negb].
    replace (Py.len f - 2 + 2) with (Py.len f) by lia.
    replace (64 <? Py.len f) with false by (symmetry; apply Z.ltb_ge; lia).
    replace (Py.len f <? 4) with false by (symmetry; apply Z.ltb_ge; lia).
    replace (Py.len f <=? Z.of_nat n) with false
      by (symmetry; apply Z.leb_gt; unfold Py.len; lia).
    reflexivity.
Qed.

(** Every pass that goes round again leaves a shorter buffer. *)
Lemma update_step_shrinks (r : CRSFReceiver) :
  match update_step r with
  | Skip r' => (length (input_buffer r') < length (input_buffer r))%nat
  | Handle _ out => (length (input_buffer (snd out)) < length (input_buffer r))%nat
  | Stop | Abort _ _ => True
  end.
Proof.
  unfold update_step.
  destruct (2 <? Py.len (input_buffer r)) eqn:Hlen; cbn [negb]; [| exact I].
  apply Z.ltb_lt in Hlen.
  assert (Hdrop : (length (drop 1 (input_buffer r)) < length (input_buffer r))%nat)
    by (rewrite length_drop; unfold Py.len in Hlen; lia).
  destruct (Py.index (input_buffer r) 0) as [b0 | e]; [| exact I].
  destruct (negb (b0 =? CRSF_SYNC)); [exact Hdrop |].
  destruct (Py.index (input_buffer r) 1) as [l | e]; [| exact I].
  destruct ((64 <? l + 2) || (l + 2 <? 4)) eqn:Hbad; [exact Hdrop |].
  apply orb_false_iff in Hbad as [_ H4]. apply Z.ltb_ge in H4.
  destruct (l + 2 <=? Py.len (input_buffer r)) eqn:Hfull; [| exact I].
  apply Z.leb_le in Hfull.
  assert (Hcut : (length (Py.slice (input_buffer r) (Some (l + 2)%Z) None)
                  < length (input_buffer r))%nat).
  { rewrite slice_from by lia. rewrite length_drop. unfold Py.len in *. lia. }
  destruct (_validate_frame _) as [[|] | e]; [| exact Hcut | exact I].
  destruct (Py.index _ 2) as [t | e]; [| exact I].
  rewrite handle_packet_buffer. exact Hcut.
Qed.

(** No pass takes the channel mapping out of its shape. *)
Lemma update_step_channels_ok (r : CRSFReceiver) :
  channels_ok (channels r) ->
  match update_step r with
  | Skip r' => channels_ok (channels r')
  | Handle _ out => channels_ok (channels (snd out))
  | Abort _ r' => channels_ok (channels r')
  | Stop => True
  end.
Proof.
  intros Hok. unfold update_step.
  destruct (negb _); [exact I |].
  destruct (Py.index (input_buffer r) 0) as [b0 | e]; [| exact Hok].
  destruct (negb _); [exact Hok |].
  destruct (Py.index (input_buffer r) 1) as [l | e]; [| exact Hok].
  destruct (_ || _); [exact Hok |].
  destruct (_ <=? _); [| exact I].
  destruct (_validate_frame _) as [[|] | e]; [| exact Hok | exact Hok].
  destruct (Py.index _ 2) as [t | e]; [| exact Hok].
  apply handle_packet_channels_ok. exact Hok.
Qed.

(** *** The whole loop *)

(** The loop always finishes: fuel above the buffer length is never used
    up. *)
Lemma update_loop_total (fuel : nat) (r : CRSFReceiver) :
  (length (input_buffer r) < fuel)%nat -> exists c, update_loop fuel r = Some c.
Proof.
  revert r. induction fuel as [| fuel IH]; intros r Hfuel; [lia |].
  cbn [update_loop]. pose proof (update_step_shrinks r) as Hs.
  destruct (update_step r) as [| r' | p [[u | e] r'] | e r'].
  - eexists. reflexivity.
  - apply IH. lia.
  - cbn [snd] in Hs. destruct (IH r') as [c ->]; [lia |].
    eexists. reflexivity.
  - eexists. reflexivity.
  - eexists. reflexivity.
Qed.

Lemma update_total (r : CRSFReceiver) (incoming : list Z) :
  exists c, update r incoming = Some c.
Proof. unfold update. apply update_loop_total. lia. Qed.

Lemma update_loop_channels_ok (fuel : nat) (r : CRSFReceiver) (c : cycle) :
  update_loop fuel r = Some c ->
  channels_ok (channels r) -> channels_ok (channels (receiver c)).
Proof.
  revert r c. induction fuel as [| fuel IH]; intros r c Hrun Hok; [discriminate Hrun |].
  cbn [update_loop] in Hrun. pose proof (update_step_channels_ok r Hok) as Hs.
  destruct (update_step r) as [| r' | p [[u | e] r'] | e r'].
  - injection Hrun as <-. exact Hok.
  - apply (IH r'); assumption.
  - cbn [snd] in Hs. destruct (update_loop fuel r') as [c' |] eqn:Hc'; [| discriminate Hrun].
    injection Hrun as <-. apply (IH r' c' Hc' Hs).
  - injection Hrun as <-. exact Hs.
  - injection Hrun as <-. exact Hs.
Qed.

(** One valid frame, alone in the buffer: it is dispatched, once, and the
    cycle ends the way [_handle_packet] ends. *)
Lemma update_loop_frame (fuel : nat) (r : CRSFReceiver) (f : list Z) (t : Z) :
  input_buffer r = f -> valid_frame f = true -> Py.index f 2 = Ok t ->
  (2 <= fuel)%nat ->
  update_loop fuel r = Some ([f], _handle_packet t f (set_input_buffer [] r)).
Proof.
  intros Hbuf Hf Ht Hfuel. apply valid_frame_inv in Hf as (Hc & Hv & _).
  destruct fuel as [| [| fuel]]; [lia | lia |].
  cbn [update_loop].
  rewrite (update_step_frame r f []) by (rewrite ?app_nil_r; assumption).
  rewrite Hv, Ht.
  pose proof (handle_packet_buffer t f (set_input_buffer [] r)) as Hb.
  destruct (_handle_packet t f (set_input_buffer [] r)) as [[[] | e] r2];
    [| reflexivity].
  change (input_buffer r2 = []) in Hb.
  rewrite update_step_short by (rewrite Hb; unfold Py.len; cbn [length]; lia).
  reflexivity.
Qed.

End Synchronizer.

(** ** Channel decoding *)

Section Channels.

Lemma decode_channels_lookup (data : list Z) (r : CRSFReceiver) :
  24 <= Py.len data ->
  exists r',
    _decode_channels data r = (Ok tt, r')
    /\ forall i, 0 <= i < 16 ->
         exists v, raw_channel (Py.slice data (Some 3) None) i = Ok v
                   /\ channels r' !! (i + 1) = Some (us_floor v).
Proof.
  intros Hlen. unfold _decode_channels.
  destruct (decode_loop_ok (Py.slice data (Some 3) None) (Py.range 16))
    with (r := r) as (r' & Hrun & _ & _ & Hin & _).
  - apply range_NoDup.
  - intros i Hi. apply range_elem in Hi. rewrite decode_channels_data_len.
    split; [lia |].
    assert (i * 11 / 8 < 21) by (apply Z.div_lt_upper_bound; lia). lia.
  - exists r'. split; [exact Hrun |].
    intros i Hi. apply Hin. apply range_elem. lia.
Qed.

Lemma zeros_fields :
  forallb (field_is (Py.slice zeros_frame (Some 3) None) 0) (Py.range 16) = true.
Proof. vm_compute. reflexivity. Qed.

Lemma ones_fields :
  forallb (field_is (Py.slice ones_frame (Some 3) None) 2047) (Py.range 16) = true.
Proof. vm_compute. reflexivity. Qed.

(** A frame whose fields all hold [x] sets every channel to the
    truncation for [x]. *)
Lemma uniform_frame_channels (f : list Z) (x : Z) (r : CRSFReceiver) (k : Z) :
  24 <= Py.len f ->
  forallb (field_is (Py.slice f (Some 3) None) x) (Py.range 16) = true ->
  1 <= k <= 16 ->
  channels (snd (_decode_channels f r)) !! k = Some (us_floor x).
Proof.
  intros Hlen Hall Hk.
  destruct (decode_channels_lookup f r Hlen) as (r' & -> & Hin).
  destruct (Hin (k - 1)) as (v & Hv & Hlook); [lia |].
  rewrite forallb_forall in Hall. specialize (Hall (k - 1)).
  unfold field_is in Hall. rewrite Hv in Hall.
  replace (k - 1 + 1) with k in Hlook by lia.
  cbn [snd]. rewrite Hlook. do 2 f_equal. apply Z.eqb_eq. apply Hall.
  apply list_elem_of_In. apply range_elem. lia.
Qed.

(** C1, as the code has it. Every RC_CHANNELS_PACKED frame that is decoded
    stores, for each of its sixteen 11-bit raw values [v] (bits [11 i] to
    [11 i + 10] of the data after the header), the truncation
    [int(v * 0.62 + 881)], which is the floor of [(62 v + 88100) / 100]; it
    is not rounded to nearest. All fields 0 give 881 on every channel and
    all fields 2047 give 2150. *)
Theorem decode_channels_truncates
    (data : list Z) (r r' : CRSFReceiver) (i : Z) :
  _decode_channels data r = (Ok tt, r') -> 0 <= i < 16 ->
  (exists v,
     raw_channel (Py.slice data (Some 3) None) i = Ok v
     /\ 0 <= v <= 2047
     /\ (Forall is_byte data ->
         v = spec_field (Py.slice data (Some 3) None) i)
     /\ to_us v = Ok ((62 * v + 88100) / 100)
     /\ channels r' !! (i + 1) = Some ((62 * v + 88100) / 100))
  /\ (forall k, 1 <= k <= 16 ->
        channels (snd (_decode_channels zeros_frame r)) !! k = Some 881)
  /\ (forall k, 1 <= k <= 16 ->
        channels (snd (_decode_channels ones_frame r)) !! k = Some 2150).
Proof.
  intros Hrun Hi. split; [| split].
  - pose proof (decode_channels_outcome data r) as Hout.
    rewrite Hrun in Hout. cbn [fst] in Hout.
    destruct (24 <=? Py.len data) eqn:Hlen; [| discriminate Hout].
    apply Z.leb_le in Hlen.
    destruct (decode_channels_lookup data r Hlen) as (r2 & Hrun2 & Hin).
    assert (r2 = r') by congruence. subst r2.
    destruct (Hin i Hi) as (v & Hv & Hlook).
    pose proof (raw_channel_range _ _ _ Hv) as Hvr.
    exists v. split; [exact Hv |]. split; [exact Hvr |].
    split; [| split; [apply to_us_exact; exact Hvr | exact Hlook]].
    intros Hbytes.
    assert (Hfield : raw_channel (Py.slice data (Some 3) None) i
                     = Ok (spec_field (Py.slice data (Some 3) None) i)).
    { apply raw_channel_field; [| lia |].
      - rewrite slice_from by lia. apply Forall_drop. exact Hbytes.
      - rewrite decode_channels_data_len.
        assert (i * 11 / 8 < 21) by (apply Z.div_lt_upper_bound; lia). lia. }
    congruence.
  - intros k Hk.
    apply (uniform_frame_channels zeros_frame 0 r k);
      [vm_compute; discriminate | exact zeros_fields | exact Hk].
  - intros k Hk.
    apply (uniform_frame_channels ones_frame 2047 r k);
      [vm_compute; discriminate | exact ones_fields | exact Hk].
Qed.

Lemma decode_channels_truncates_witness :
  exists v,
    raw_channel (Py.slice zeros_frame (Some 3) None) 0 = Ok v
    /\ 0 <= v <= 2047
    /\ (Forall is_byte zeros_frame ->
        v = spec_field (Py.slice zeros_frame (Some 3) None) 0)
    /\ to_us v = Ok ((62 * v + 88100) / 100)
    /\ channels (snd (_decode_channels zeros_frame init)) !! (0 + 1)
       = Some ((62 * v + 88100) / 100).
Proof.
  assert (Hrun : _decode_channels zeros_frame init
                 = (Ok tt, snd (_decode_channels zeros_frame init)))
    by (vm_compute; reflexivity).
  assert (Hi : 0 <= 0 < 16) by lia.
  exact (proj1 (decode_channels_truncates zeros_frame init _ 0 Hrun Hi)).
Defined.

(** C1, as the specification words it, fails: a frame whose first field
    holds 1 leaves 881 in channel 1, and [round(1 * 0.62 + 881)] is 882. *)
Lemma decode_channels_not_rounded :
  exists r',
    _decode_channels
      (build_frame (value RC_CHANNELS_PACKED) (1 :: repeat 0 21)) init
    = (Ok tt, r')
    /\ raw_channel
         (Py.slice (build_frame (value RC_CHANNELS_PACKED) (1 :: repeat 0 21))
            (Some 3) None) 0 = Ok 1
    /\ spec_to_us 1 = Ok 882
    /\ channels r' !! 1 = Some 881
    /\ channels r' !! 1 <> Some 882.
Proof.
  eexists. split; [vm_compute; reflexivity |].
  split; [vm_compute; reflexivity |].
  split; [vm_compute; reflexivity |].
  split; [vm_compute; reflexivity | vm_compute; discriminate].
Qed.

(** C2 fails on the code. The 4-byte frame [C8 02 16 D3] is admitted by the
    synchronizer and passes the validator; decoding it reads its CRC byte
    as channel 1 and then raises [IndexError] at the unguarded
    [channel_data[byte_index]] of channel 2. The exception leaves [update]. *)
Theorem decode_channels_short_frame_raises :
  valid_frame [0xC8; 2; 0x16; 0xD3] = true
  /\ Py.len [0xC8; 2; 0x16; 0xD3] = 4
  /\ raw_channel (Py.slice [0xC8; 2; 0x16; 0xD3] (Some 3) None) 1
     = Raise IndexError
  /\ update init [0xC8; 2; 0x16; 0xD3]
     = Some ([[0xC8; 2; 0x16; 0xD3]],
             (Raise IndexError, set_channel 1 1011 init)).
Proof.
  split; [vm_compute; reflexivity |].
  split; [vm_compute; reflexivity |].
  split; [vm_compute; reflexivity |].
  vm_compute. reflexivity.
Qed.

End Channels.

(** ** Battery telemetry *)

Section Battery.

(** The payload layout of [struct.pack('>HHHB', ...)]: seven bytes, three
    big-endian 16-bit fields and one byte. *)
Lemma pack_HHHB_layout (a b c d : Z) :
  0 <= a <= 65535 -> 0 <= b <= 65535 -> 0 <= c <= 65535 -> 0 <= d <= 255 ->
  pack_HHHB a b c d =
  Ok [Z.shiftr a 8; Z.land a 255; Z.shiftr b 8; Z.land b 255;
      Z.shiftr c 8; Z.land c 255; d].
Proof.
  intros Ha Hb Hc Hd. unfold pack_HHHB, Py.pack_H, Py.pack_B.
  repeat match goal with
         | |- context [?x <=? ?y] =>
             replace (x <=? y) with true by (symmetry; apply Z.leb_le; lia)
         end.
  reflexivity.
Qed.

Lemma battery_frame_layout :
  send_battery_telemetry 11.8%float 0.0%float 0 100
  = Ok [0xC8; 9; 0x08; 0x00; 0x76; 0x00; 0x00; 0x00; 0x00; 100; 251]
  /\ _crc8_data [0x08; 0x00; 0x76; 0x00; 0x00; 0x00; 0x00; 100] = 251.
Proof. split; vm_compute; reflexivity. Qed.

(** C3, as the code has it. [send_battery_telemetry(11.8, 0.0, 0, 100)]
    writes the 11 bytes [C8 09 08 00 76 00 00 00 00 64 CRC]: the voltage
    scales to 118 (0x76), the payload is the 7 bytes of two-byte big-endian
    voltage, current and mAh and one byte of percentage, and the last byte
    is the CRC8 of type and payload. *)
Theorem battery_frame_example :
  send_battery_telemetry 11.8%float 0.0%float 0 100
  = Ok [0xC8; 9; 0x08; 0x00; 0x76; 0x00; 0x00; 0x00; 0x00; 100;
        _crc8_data [0x08; 0x00; 0x76; 0x00; 0x00; 0x00; 0x00; 100]]
  /\ length [0xC8; 9; 0x08; 0x00; 0x76; 0x00; 0x00; 0x00; 0x00; 100;
             _crc8_data [0x08; 0x00; 0x76; 0x00; 0x00; 0x00; 0x00; 100]]
     = 11%nat
  /\ Py.int (11.8 * Py.float_of_int 10)%float = Ok 118
  /\ Py.round (11.8 * Py.float_of_int 10)%float = Ok 118
  /\ pack_HHHB 118 0 0 100 = Ok [0x00; 0x76; 0x00; 0x00; 0x00; 0x00; 100].
Proof. repeat split; vm_compute; reflexivity. Qed.

(** C3, as the specification words it, fails: the frame is not 10 bytes
    long. *)
Lemma battery_frame_not_ten_bytes :
  ~ exists frame,
      send_battery_telemetry 11.8%float 0.0%float 0 100 = Ok frame
      /\ length frame = 10%nat.
Proof.
  intros (frame & Hframe & Hlen).
  destruct battery_frame_layout as [Hrun _].
  rewrite Hrun in Hframe. injection Hframe as <-. discriminate Hlen.
Qed.

End Battery.

(** ** Processing cycles *)

Section Cycles.

Lemma update_loop_skip (fuel : nat) (r r' : CRSFReceiver) :
  update_step r = Skip r' -> update_loop (S fuel) r = update_loop fuel r'.
Proof. intros H. cbn [update_loop]. rewrite H. reflexivity. Qed.

Lemma update_loop_handle
    (fuel : nat) (r r' : CRSFReceiver) (p : list Z) (u : unit) :
  update_step r = Handle p (Ok u, r') ->
  update_loop (S fuel) r = log_packet p <$> update_loop fuel r'.
Proof. intros H. cbn [update_loop]. rewrite H. reflexivity. Qed.

Lemma update_loop_stop (fuel : nat) (r : CRSFReceiver) :
  update_step r = Stop -> update_loop (S fuel) r = Some ([], (Ok tt, r)).
Proof. intros H. cbn [update_loop]. rewrite H. reflexivity. Qed.

Lemma update_frame (r : CRSFReceiver) (f : list Z) (t : Z) :
  input_buffer r = [] -> valid_frame f = true -> Py.index f 2 = Ok t ->
  update r f = Some ([f], _handle_packet t f r).
Proof.
  intros Hbuf Hf Ht. unfold update. cbv zeta. rewrite Hbuf, app_nil_l.
  rewrite (update_loop_frame _ _ f t); try assumption; try reflexivity.
  - rewrite set_input_buffer_twice, <- Hbuf, set_input_buffer_same. reflexivity.
  - apply valid_frame_inv in Hf as (Hc & _).
    apply candidate_frame_inv in Hc as (Hlen & _).
    cbn [set_input_buffer input_buffer]. unfold Py.len in Hlen. lia.
Qed.

(** Noise before at least two more bytes is dropped byte by byte, one pass
    of the loop each. *)
Lemma update_loop_noise (noise rest : list Z) (fuel : nat) (r : CRSFReceiver) :
  Forall (fun b => b <> CRSF_SYNC) noise -> 2 <= Py.len rest ->
  update_loop (length noise + fuel) (set_input_buffer (noise ++ rest) r)
  = update_loop fuel (set_input_buffer rest r).
Proof.
  intros Hnoise Hrest. induction Hnoise as [| b noise Hb Hnoise IH].
  - reflexivity.
  - cbn [length app Nat.add].
    assert (Hlen : 2 <= Py.len (noise ++ rest))
      by (rewrite len_app; pose proof (len_nonneg noise); lia).
    rewrite (update_loop_skip _ _ _
               (update_step_drop (set_input_buffer (b :: noise ++ rest) r)
                  b (noise ++ rest) eq_refl Hlen Hb)).
    rewrite set_input_buffer_twice. exact IH.
Qed.

Lemma update_noise_frame (noise f : list Z) (r : CRSFReceiver) (t : Z) :
  Forall (fun b => b <> CRSF_SYNC) noise ->
  input_buffer r = [] -> valid_frame f = true -> Py.index f 2 = Ok t ->
  update r (noise ++ f) = Some ([f], _handle_packet t f r).
Proof.
  intros Hnoise Hbuf Hf Ht. unfold update. cbv zeta. rewrite Hbuf, app_nil_l.
  assert (Hlen : 4 <= Py.len f).
  { apply valid_frame_inv in Hf as (Hc & _).
    apply candidate_frame_inv in Hc as (Hlen & _). lia. }
  cbn [set_input_buffer input_buffer]. rewrite length_app.
  replace (S (length noise + length f)) with (length noise + S (length f))%nat by lia.
  rewrite update_loop_noise by (try assumption; lia).
  rewrite (update_loop_frame _ _ f t); try assumption; try reflexivity.
  - rewrite set_input_buffer_twice, <- Hbuf, set_input_buffer_same. reflexivity.
  - unfold Py.len in Hlen. lia.
Qed.

Lemma update_garbage_frame (r : CRSFReceiver) (f : list Z) (t : Z) :
  input_buffer r = [] -> valid_frame f = true -> Py.index f 2 = Ok t ->
  update r ([0; 0] ++ f) = Some ([f], _handle_packet t f r).
Proof.
  intros Hbuf Hf Ht. apply update_noise_frame; try assumption.
  repeat constructor; discriminate.
Qed.

Lemma update_partial (r : CRSFReceiver) (f : list Z) (n : nat) :
  input_buffer r = [] -> candidate_frame f = true -> (n < length f)%nat ->
  update r (take n f) = Some ([], (Ok tt, set_input_buffer (take n f) r)).
Proof.
  intros Hbuf Hf Hn. unfold update. cbv zeta. rewrite Hbuf, app_nil_l.
  cbn [update_loop].
  rewrite (update_step_partial _ f n); [reflexivity | reflexivity | exact Hf | exact Hn].
Qed.

Lemma update_nothing (r : CRSFReceiver) :
  input_buffer r = [] -> update r [] = Some ([], (Ok tt, r)).
Proof.
  intros Hbuf. unfold update. cbv zeta. rewrite Hbuf, app_nil_l.
  rewrite <- Hbuf, set_input_buffer_same. cbn [update_loop].
  rewrite update_step_short by (rewrite Hbuf; unfold Py.len; cbn [length]; lia).
  reflexivity.
Qed.

(** C7. Split-frame equivalence: for a valid frame [f], a receiver with
    nothing buffered and every offset [0 <= k <= len(f)], a cycle fed
    [f[0:k]] followed by a cycle fed [f[k:]] leaves the receiver that one
    cycle fed [f] leaves, channels and link statistics included, and
    dispatches the same frames. *)
Theorem split_frame_equivalence (r : CRSFReceiver) (f : list Z) (k : Z) :
  input_buffer r = [] -> valid_frame f = true -> 0 <= k <= Py.len f ->
  exists c1 c2 c,
    update r (Py.slice f (Some 0) (Some k)) = Some c1
    /\ update (receiver c1) (Py.slice f (Some k) None) = Some c2
    /\ update r f = Some c
    /\ receiver c2 = receiver c
    /\ channels (receiver c2) = channels (receiver c)
    /\ link_stats (receiver c2) = link_stats (receiver c)
    /\ dispatched c1 ++ dispatched c2 = dispatched c
    /\ cycles r [Py.slice f (Some 0) (Some k); Py.slice f (Some k) None]
       = cycles r [f].
Proof.
  intros Hbuf Hf Hk.
  destruct (valid_frame_type f Hf) as (t & _ & Ht).
  pose proof (update_frame r f t Hbuf Hf Ht) as Hwhole.
  rewrite slice_between, slice_from by lia.
  rewrite Z.sub_0_r. change (Z.to_nat 0) with 0%nat. rewrite drop_0.
  destruct (Z.eq_dec k (Py.len f)) as [-> | Hne].
  - (* the whole frame in the first cycle, nothing in the second *)
    unfold Py.len. rewrite Nat2Z.id, firstn_all, drop_all.
    pose proof (handle_packet_buffer t f r) as Hb. rewrite Hbuf in Hb.
    exists ([f], _handle_packet t f r), ([], (Ok tt, snd (_handle_packet t f r))),
      ([f], _handle_packet t f r).
    split; [exact Hwhole |].
    split; [apply update_nothing; exact Hb |].
    split; [exact Hwhole |].
    split; [reflexivity |]. split; [reflexivity |]. split; [reflexivity |].
    split; [reflexivity |].
    cbn [cycles]. rewrite Hwhole. unfold receiver. cbn [snd].
    rewrite update_nothing by exact Hb. reflexivity.
  - (* a proper head first, the rest afterwards *)
    assert (Hn : (Z.to_nat k < length f)%nat) by (unfold Py.len in *; lia).
    pose proof (valid_frame_inv f Hf) as (Hc & _ & _).
    pose proof (update_partial r f (Z.to_nat k) Hbuf Hc Hn) as Hhead.
    assert (Htail : update (set_input_buffer (take (Z.to_nat k) f) r)
                      (drop (Z.to_nat k) f)
                    = Some ([f], _handle_packet t f r)).
    { rewrite <- Hwhole. unfold update. cbv zeta.
      cbn [set_input_buffer input_buffer]. rewrite take_drop, Hbuf, app_nil_l.
      reflexivity. }
    exists ([], (Ok tt, set_input_buffer (take (Z.to_nat k) f) r)),
      ([f], _handle_packet t f r), ([f], _handle_packet t f r).
    split; [exact Hhead |].
    split; [exact Htail |].
    split; [exact Hwhole |].
    split; [reflexivity |]. split; [reflexivity |]. split; [reflexivity |].
    split; [reflexivity |].
    cbn [cycles]. rewrite Hhead, Hwhole. unfold receiver at 1. cbn [snd].
    rewrite Htail. reflexivity.
Qed.

Lemma split_frame_equivalence_witness :
  exists c1 c2 c,
    update init (Py.slice [0xC8; 6; 0x14; 50; 60; 90; 10; 64] (Some 0) (Some 5))
    = Some c1
    /\ update (receiver c1)
         (Py.slice [0xC8; 6; 0x14; 50; 60; 90; 10; 64] (Some 5) None) = Some c2
    /\ update init [0xC8; 6; 0x14; 50; 60; 90; 10; 64] = Some c
    /\ receiver c2 = receiver c.
Proof.
  assert (Hk : 0 <= 5 <= Py.len [0xC8; 6; 0x14; 50; 60; 90; 10; 64])
    by (vm_compute; split; discriminate).
  destruct (split_frame_equivalence init [0xC8; 6; 0x14; 50; 60; 90; 10; 64] 5
              eq_refl eq_refl Hk) as (c1 & c2 & c & H1 & H2 & H3 & H4 & _).
  exists c1, c2, c. auto.
Defined.

(** C9. No mutation on rejection or unknown type: a candidate frame that
    fails the CRC check, and a validated frame whose type byte is neither
    0x16 nor 0x14, is removed from the buffer and changes nothing else;
    the channels and the link statistics stay as they were and the cycle
    ends without an exception. *)
Theorem rejected_or_unknown_frame_no_mutation
    (r : CRSFReceiver) (f rest : list Z) :
  input_buffer r = [] -> candidate_frame f = true ->
  (_validate_frame f = Ok false
   \/ (_validate_frame f = Ok true
       /\ exists t, Py.index f 2 = Ok t
                    /\ t <> value RC_CHANNELS_PACKED
                    /\ t <> value LINK_STATISTICS)) ->
  (exists r',
     (update_step (set_input_buffer (f ++ rest) r) = Skip r'
      \/ update_step (set_input_buffer (f ++ rest) r) = Handle f (Ok tt, r'))
     /\ input_buffer r' = rest
     /\ channels r' = channels r
     /\ link_stats r' = link_stats r)
  /\ (exists c,
        update r f = Some c
        /\ outcome c = Ok tt
        /\ receiver c = r).
Proof.
  intros Hbuf Hf Hcase.
  assert (Hstep : forall tail,
             update_step (set_input_buffer (f ++ tail) r)
             = (if _validate_frame f is Ok true
                then Handle f (Ok tt, set_input_buffer tail r)
                else Skip (set_input_buffer tail r))).
  { intros tail.
    rewrite (update_step_frame _ f tail) by (try reflexivity; exact Hf).
    destruct Hcase as [-> | (-> & t & -> & Ht1 & Ht2)]; [reflexivity |].
    rewrite handle_packet_other by assumption. reflexivity. }
  split.
  - exists (set_input_buffer rest r). rewrite Hstep.
    split; [| repeat split].
    destruct Hcase as [-> | (-> & _)]; [left | right]; reflexivity.
  - unfold update. cbv zeta. rewrite Hbuf, app_nil_l.
    pose proof (candidate_frame_inv f Hf) as (Hlen & _).
    destruct (length f) as [| n] eqn:Hn; [unfold Py.len in Hlen; lia |].
    cbn [set_input_buffer input_buffer]. rewrite Hn.
    pose proof (Hstep []) as Hlast. rewrite app_nil_r in Hlast.
    assert (Hr : set_input_buffer [] r = r)
      by (rewrite <- Hbuf; apply set_input_buffer_same).
    rewrite Hr in Hlast.
    assert (Hstop : update_loop (S n) r = Some ([], (Ok tt, r))).
    { apply update_loop_stop. apply update_step_short.
      rewrite Hbuf. unfold Py.len. cbn [length]. lia. }
    destruct Hcase as [Hv | (Hv & _)]; rewrite Hv in Hlast.
    + rewrite (update_loop_skip _ _ _ Hlast), Hstop.
      eexists. split; [reflexivity |]. split; reflexivity.
    + rewrite (update_loop_handle _ _ _ _ _ Hlast), Hstop.
      eexists. split; [reflexivity |]. split; reflexivity.
Qed.

Lemma rejected_or_unknown_frame_no_mutation_witness :
  (exists r',
     (update_step (set_input_buffer ([0xC8; 3; 0x0B; 7; 17] ++ [0xC8]) init) = Skip r'
      \/ update_step (set_input_buffer ([0xC8; 3; 0x0B; 7; 17] ++ [0xC8]) init)
         = Handle [0xC8; 3; 0x0B; 7; 17] (Ok tt, r'))
     /\ input_buffer r' = [0xC8]
     /\ channels r' = channels init
     /\ link_stats r' = link_stats init)
  /\ (exists c,
        update init [0xC8; 3; 0x0B; 7; 17] = Some c
        /\ outcome c = Ok tt
        /\ receiver c = init).
Proof.
  apply (rejected_or_unknown_frame_no_mutation init [0xC8; 3; 0x0B; 7; 17] [0xC8]).
  - reflexivity.
  - reflexivity.
  - right. split; [reflexivity |]. exists 0x0B.
    split; [reflexivity |]. split; discriminate.
Defined.

(** *** Link statistics *)

Lemma decode_link_stats_ok (data : list Z) (r : CRSFReceiver) :
  7 <= Py.len data ->
  exists b3 b4 b5 b6,
    data !! 3%nat = Some b3 /\ data !! 4%nat = Some b4
    /\ data !! 5%nat = Some b5 /\ data !! 6%nat = Some b6
    /\ _decode_link_stats data r
       = (Ok tt,
          set_link_stats
            {| rssi1 := - b3;
               rssi2 := - b4;
               link_quality := b5;
               snr := if 128 <=? b6 then b6 - 256 else b6 |} r).
Proof.
  intros Hlen.
  destruct (index_lookup data 3) as (b3 & H3 & E3); [lia |].
  destruct (index_lookup data 4) as (b4 & H4 & E4); [lia |].
  destruct (index_lookup data 5) as (b5 & H5 & E5); [lia |].
  destruct (index_lookup data 6) as (b6 & H6 & E6); [lia |].
  exists b3, b4, b5, b6. repeat (split; [assumption |]).
  unfold _decode_link_stats, bind, lift, modify. rewrite E3, E4, E5, E6.
  replace (-1 * b3) with (- b3) by lia.
  replace (-1 * b4) with (- b4) by lia.
  rewrite (Z.leb_antisym b6 128). destruct (b6 <? 128); reflexivity.
Qed.

(** C8, as the code has it. A validated LINK_STATISTICS frame of at least
    7 bytes replaces the stored record as a whole: both RSSI bytes negated,
    the link quality as it is, and byte 6 read as a signed 8-bit value.
    Payload [50, 60, 90, 10] gives -50, -60, 90 and 10; an SNR byte of 200
    gives -56. *)
Theorem link_stats_decoded (r : CRSFReceiver) (f : list Z) :
  input_buffer r = [] -> valid_frame f = true ->
  Py.index f 2 = Ok (value LINK_STATISTICS) -> 7 <= Py.len f ->
  (exists b3 b4 b5 b6,
     f !! 3%nat = Some b3 /\ f !! 4%nat = Some b4
     /\ f !! 5%nat = Some b5 /\ f !! 6%nat = Some b6
     /\ update r f
        = Some ([f],
                (Ok tt,
                 mkReceiver [] (channels r)
                   (Some {| rssi1 := - b3;
                            rssi2 := - b4;
                            link_quality := b5;
                            snr := if 128 <=? b6 then b6 - 256 else b6 |})))
     /\ -128 <= (if 128 <=? b6 then b6 - 256 else b6) <= 127)
  /\ get_link_stats
       (snd (_handle_packet (value LINK_STATISTICS)
               (build_frame (value LINK_STATISTICS) [50; 60; 90; 10]) r))
     = Some {| rssi1 := -50; rssi2 := -60; link_quality := 90; snr := 10 |}
  /\ get_link_stats
       (snd (_handle_packet (value LINK_STATISTICS)
               (build_frame (value LINK_STATISTICS) [50; 60; 90; 200]) r))
     = Some {| rssi1 := -50; rssi2 := -60; link_quality := 90; snr := -56 |}.
Proof.
  intros Hbuf Hf Ht Hlen. split; [| split; vm_compute; reflexivity].
  destruct (decode_link_stats_ok f r Hlen)
    as (b3 & b4 & b5 & b6 & H3 & H4 & H5 & H6 & Hrun).
  exists b3, b4, b5, b6. repeat (split; [assumption |]).
  split.
  - rewrite (update_frame r f _ Hbuf Hf Ht).
    unfold _handle_packet. cbn [value Z.eqb Pos.eqb]. rewrite Hrun.
    unfold set_link_stats. rewrite Hbuf. reflexivity.
  - apply valid_frame_inv in Hf as (_ & _ & Hbytes).
    rewrite Forall_forall in Hbytes.
    assert (Hb6 : is_byte b6) by (apply Hbytes; eapply list_elem_of_lookup_2; exact H6).
    unfold is_byte in Hb6. destruct (128 <=? b6) eqn:Hs.
    + apply Z.leb_le in Hs. lia.
    + apply Z.leb_gt in Hs. lia.
Qed.

Lemma link_stats_decoded_witness :
  exists b3 b4 b5 b6,
    [0xC8; 6; 0x14; 50; 60; 90; 200; 77] !! 3%nat = Some b3
    /\ [0xC8; 6; 0x14; 50; 60; 90; 200; 77] !! 4%nat = Some b4
    /\ [0xC8; 6; 0x14; 50; 60; 90; 200; 77] !! 5%nat = Some b5
    /\ [0xC8; 6; 0x14; 50; 60; 90; 200; 77] !! 6%nat = Some b6
    /\ update init [0xC8; 6; 0x14; 50; 60; 90; 200; 77]
       = Some ([[0xC8; 6; 0x14; 50; 60; 90; 200; 77]],
               (Ok tt,
                mkReceiver [] (channels init)
                  (Some {| rssi1 := - b3;
                           rssi2 := - b4;
                           link_quality := b5;
                           snr := if 128 <=? b6 then b6 - 256 else b6 |}))).
Proof.
  assert (Hlen : 7 <= Py.len [0xC8; 6; 0x14; 50; 60; 90; 200; 77])
    by (vm_compute; discriminate).
  destruct (link_stats_decoded init [0xC8; 6; 0x14; 50; 60; 90; 200; 77]
              eq_refl eq_refl eq_refl Hlen)
    as [(b3 & b4 & b5 & b6 & H3 & H4 & H5 & H6 & Hrun & _) _].
  exists b3, b4, b5, b6. auto.
Defined.

(** C8, as the specification words it, fails: the 4-byte frame
    [C8 02 14 AC] is validated and is a LINK_STATISTICS frame, yet no record
    is stored; [_decode_link_stats] raises [IndexError] at [data[4]]. *)
Lemma link_stats_short_frame_raises :
  valid_frame [0xC8; 2; 0x14; 0xAC] = true
  /\ Py.index [0xC8; 2; 0x14; 0xAC] 2 = Ok (value LINK_STATISTICS)
  /\ Py.index [0xC8; 2; 0x14; 0xAC] 4 = Raise IndexError
  /\ update init [0xC8; 2; 0x14; 0xAC]
     = Some ([[0xC8; 2; 0x14; 0xAC]], (Raise IndexError, init))
  /\ link_stats init = None.
Proof. repeat split; vm_compute; reflexivity. Qed.

(** *** The channel mapping over the life of a receiver *)

Lemma init_channels_ok : channels_ok (channels init).
Proof.
  split.
  - vm_compute. reflexivity.
  - unfold init. cbn [channels fmap list_fmap seq list_to_map foldr Z.of_nat
                      Pos.of_succ_nat Pos.succ curry uncurry fst snd].
    repeat (apply map_Forall_insert_2; [left; reflexivity |]).
    apply map_Forall_empty.
Qed.

Lemma channels_ok_size (m : gmap Z Z) : channels_ok m -> size m = 16%nat.
Proof.
  intros [Hdom _]. rewrite <- size_dom, Hdom. vm_compute. reflexivity.
Qed.

Lemma channels_ok_lookup (m : gmap Z Z) (k : Z) :
  channels_ok m -> 1 <= k <= 16 ->
  exists v, m !! k = Some v /\ (v = 1500 \/ 881 <= v <= 2150).
Proof.
  intros [Hdom Hval] Hk.
  assert (Hin : k ∈ dom m) by (rewrite Hdom; apply channel_key_elem; exact Hk).
  apply elem_of_dom in Hin as [v Hv].
  exists v. split; [exact Hv |]. apply (Hval k v Hv).
Qed.

Lemma update_channels_ok (r : CRSFReceiver) (incoming : list Z) (c : cycle) :
  update r incoming = Some c ->
  channels_ok (channels r) -> channels_ok (channels (receiver c)).
Proof.
  unfold update. cbv zeta. intros Hrun Hok.
  apply (update_loop_channels_ok _ _ _ Hrun). exact Hok.
Qed.

Lemma cycles_channels_ok (batches : list (list Z)) (r : CRSFReceiver) :
  channels_ok (channels r) ->
  exists r', cycles r batches = Some r' /\ channels_ok (channels r').
Proof.
  revert r. induction batches as [| incoming rest IH]; intros r Hok.
  - exists r. split; [reflexivity | exact Hok].
  - cbn [cycles]. destruct (update_total r incoming) as [c Hc]. rewrite Hc.
    apply IH. apply (update_channels_ok r incoming c Hc Hok).
Qed.

(** C10. The channel mapping has exactly the keys 1 to 16, each value the
    default 1500 or a decoded value in [881, 2150], after construction and
    after any number of processing cycles on any input, whether a cycle
    returns or raises; [get_channels] returns 16 entries. *)
Theorem channel_state_invariant (batches : list (list Z)) :
  channels_ok (channels init)
  /\ size (get_channels init) = 16%nat
  /\ exists r,
       cycles init batches = Some r
       /\ dom (channels r) = channel_keys
       /\ (forall k, k ∈ dom (channels r) <-> 1 <= k <= 16)
       /\ (forall k v, channels r !! k = Some v -> v = 1500 \/ 881 <= v <= 2150)
       /\ size (get_channels r) = 16%nat.
Proof.
  split; [exact init_channels_ok |].
  split; [apply channels_ok_size; exact init_channels_ok |].
  destruct (cycles_channels_ok batches init init_channels_ok) as (r & Hrun & Hok).
  exists r. split; [exact Hrun |].
  pose proof Hok as [Hdom Hval].
  split; [exact Hdom |].
  split; [intros k; rewrite Hdom; apply channel_key_elem |].
  split; [exact Hval |].
  apply channels_ok_size. exact Hok.
Qed.

End Cycles.

(** ** CRC8 as an error-detecting code *)

Section Crc8Detection.

Lemma crc8_table_checked :
  forallb
    (fun x =>
       forallb
         (fun y => implb (_crc8_dvb_s2 0 x =? _crc8_dvb_s2 0 y) (x =? y))
         (Py.range 256))
    (Py.range 256) = true.
Proof. vm_compute. reflexivity. Qed.

(** The eight rounds permute the byte values. *)
Lemma crc8_rounds_inj (x y : Z) :
  is_byte x -> is_byte y -> _crc8_dvb_s2 0 x = _crc8_dvb_s2 0 y -> x = y.
Proof.
  intros Hx Hy Heq. pose proof crc8_table_checked as Hall.
  rewrite forallb_forall in Hall.
  assert (Hin : forall z, is_byte z -> In z (Py.range 256)).
  { intros z Hz. apply list_elem_of_In. apply range_elem. unfold is_byte in Hz. lia. }
  specialize (Hall x (Hin x Hx)). rewrite forallb_forall in Hall.
  specialize (Hall y (Hin y Hy)).
  rewrite Heq, Z.eqb_refl in Hall. cbn [implb] in Hall.
  apply Z.eqb_eq. exact Hall.
Qed.

Lemma crc8_from_zero (crc a : Z) : _crc8_dvb_s2 crc a = _crc8_dvb_s2 0 (Z.lxor crc a).
Proof. unfold _crc8_dvb_s2. rewrite Z.lxor_0_l. reflexivity. Qed.

Lemma lxor_cancel_r (a b c : Z) : Z.lxor a c = Z.lxor b c -> a = b.
Proof.
  intros H.
  rewrite <- (Z.lxor_0_r a), <- (Z.lxor_0_r b), <- (Z.lxor_nilpotent c).
  rewrite <- !Z.lxor_assoc, H. reflexivity.
Qed.

Lemma lxor_cancel_l (a b c : Z) : Z.lxor c a = Z.lxor c b -> a = b.
Proof. rewrite !(Z.lxor_comm c). apply lxor_cancel_r. Qed.

Lemma crc8_byte_inj_acc (c1 c2 a : Z) :
  is_byte c1 -> is_byte c2 -> is_byte a ->
  _crc8_dvb_s2 c1 a = _crc8_dvb_s2 c2 a -> c1 = c2.
Proof.
  intros H1 H2 Ha Heq. rewrite (crc8_from_zero c1), (crc8_from_zero c2) in Heq.
  apply crc8_rounds_inj in Heq; [| apply lxor_byte; assumption ..].
  apply (lxor_cancel_r _ _ a). exact Heq.
Qed.

Lemma crc8_byte_inj_data (c a1 a2 : Z) :
  is_byte c -> is_byte a1 -> is_byte a2 ->
  _crc8_dvb_s2 c a1 = _crc8_dvb_s2 c a2 -> a1 = a2.
Proof.
  intros Hc H1 H2 Heq. rewrite (crc8_from_zero c a1), (crc8_from_zero c a2) in Heq.
  apply crc8_rounds_inj in Heq; [| apply lxor_byte; assumption ..].
  apply (lxor_cancel_l _ _ c). exact Heq.
Qed.

Lemma crc8_fold_inj (data : list Z) (c1 c2 : Z) :
  Forall is_byte data -> is_byte c1 -> is_byte c2 ->
  fold_left _crc8_dvb_s2 data c1 = fold_left _crc8_dvb_s2 data c2 -> c1 = c2.
Proof.
  intros Hdata. revert c1 c2.
  induction Hdata as [| a data Ha Hdata IH]; intros c1 c2 H1 H2 Heq.
  - exact Heq.
  - cbn [fold_left] in Heq. apply IH in Heq; [| apply crc8_byte_range ..].
    apply (crc8_byte_inj_acc c1 c2 a); assumption.
Qed.

(** Two byte strings that differ in one place have different checksums. *)
Lemma crc8_one_byte_differs (pre post : list Z) (x y : Z) :
  Forall is_byte pre -> Forall is_byte post -> is_byte x -> is_byte y ->
  x <> y -> _crc8_data (pre ++ x :: post) <> _crc8_data (pre ++ y :: post).
Proof.
  intros Hpre Hpost Hx Hy Hne Heq. unfold _crc8_data in Heq.
  rewrite !fold_left_app in Heq. cbn [fold_left] in Heq.
  apply crc8_fold_inj in Heq; [| exact Hpost | apply crc8_byte_range ..].
  apply crc8_byte_inj_data in Heq; try assumption.
  - contradiction.
  - destruct (crc8_fold_refines pre 0) as [_ Hb];
      [unfold is_byte; lia | exact Hpre | exact Hb].
Qed.

Lemma frame_split (f : list Z) :
  3 <= Py.len f -> exists a b body c, f = a :: b :: body ++ [c].
Proof.
  intros Hlen. destruct f as [| a [| b l]];
    try (unfold Py.len in Hlen; cbn [length] in Hlen; lia).
  destruct l as [| z l] using rev_ind.
  - unfold Py.len in Hlen. cbn [length] in Hlen. lia.
  - exists a, b, l, z. reflexivity.
Qed.

Lemma validate_split (a b c : Z) (body : list Z) :
  _validate_frame (a :: b :: body ++ [c]) = Ok (_crc8_data body =? c).
Proof.
  unfold _validate_frame. rewrite slice_body.
  rewrite !app_comm_cons, index_last. reflexivity.
Qed.

(** X1. A valid frame in which one byte covered by the checksum, or the
    checksum byte itself, has been replaced by a different byte is rejected
    by the validator. *)
Theorem corrupted_byte_rejected (f : list Z) (n : nat) (x : Z) :
  valid_frame f = true -> (2 <= n < length f)%nat -> is_byte x ->
  f !! n <> Some x ->
  _validate_frame (<[n := x]> f) = Ok false.
Proof.
  intros Hf Hn Hx Hchanged.
  apply valid_frame_inv in Hf as (Hc & Hv & Hbytes).
  apply candidate_frame_inv in Hc as (Hlen & _).
  destruct (frame_split f) as (a & b & body & c & ->); [lia |].
  rewrite validate_split in Hv. injection Hv as Hv. apply Z.eqb_eq in Hv.
  apply Forall_cons in Hbytes as [_ Hbytes].
  apply Forall_cons in Hbytes as [_ Hbytes].
  apply Forall_app in Hbytes as [Hbody _].
  destruct n as [| [| m]]; [lia | lia |].
  cbn [length] in Hn. rewrite length_app in Hn. cbn [length] in Hn.
  change (<[S (S m) := x]> (a :: b :: body ++ [c]))
    with (a :: b :: <[m := x]> (body ++ [c])).
  change ((a :: b :: body ++ [c]) !! S (S m)) with ((body ++ [c]) !! m) in Hchanged.
  destruct (Nat.lt_ge_cases m (length body)) as [Hin | Hlast].
  - rewrite insert_app_l by exact Hin. rewrite validate_split. f_equal.
    apply Z.eqb_neq. rewrite <- Hv.
    rewrite lookup_app_l in Hchanged by exact Hin.
    destruct (lookup_lt_is_Some_2 body m Hin) as [y Hy].
    rewrite insert_take_drop by exact Hin.
    replace (_crc8_data body)
      with (_crc8_data (take m body ++ y :: drop (S m) body))
      by (rewrite (take_drop_middle body m y Hy); reflexivity).
    apply crc8_one_byte_differs.
    + apply Forall_take. exact Hbody.
    + apply Forall_drop. exact Hbody.
    + exact Hx.
    + rewrite Forall_forall in Hbody. apply Hbody.
      eapply list_elem_of_lookup_2. exact Hy.
    + intros ->. apply Hchanged. exact Hy.
  - assert (m = length body) by lia. subst m.
    rewrite insert_app_r_alt, Nat.sub_diag by lia. cbn [insert list_insert].
    rewrite validate_split. f_equal. apply Z.eqb_neq. rewrite Hv.
    intros ->. apply Hchanged.
    rewrite lookup_app_r, Nat.sub_diag by lia. reflexivity.
Qed.

Lemma corrupted_byte_rejected_witness :
  _validate_frame (<[5%nat := 91]> [0xC8; 6; 0x14; 50; 60; 90; 10; 64]) = Ok false.
Proof.
  apply (corrupted_byte_rejected [0xC8; 6; 0x14; 50; 60; 90; 10; 64] 5 91).
  - reflexivity.
  - cbn [length]. lia.
  - unfold is_byte. lia.
  - discriminate.
Defined.

Lemma crc8_zero_iff (x : Z) : is_byte x -> _crc8_dvb_s2 0 x = 0 <-> x = 0.
Proof.
  intros Hx. split.
  - intros H. apply crc8_rounds_inj; [exact Hx | unfold is_byte; lia |].
    rewrite H. reflexivity.
  - intros ->. reflexivity.
Qed.

(** X2. The checksum of any string, the empty one included, followed by
    its own checksum is 0, and a frame of bytes passes the validator
    exactly when the checksum of everything after its LENGTH byte, CRC byte
    included, is 0. *)
Theorem crc8_residue (data f : list Z) :
  Forall is_byte f -> 3 <= Py.len f ->
  _crc8_data (data ++ [_crc8_data data]) = 0
  /\ (_validate_frame f = Ok true <-> _crc8_data (Py.slice f (Some 2) None) = 0).
Proof.
  intros Hbytes Hlen.
  assert (Hres : forall l c, is_byte c ->
            _crc8_data (l ++ [c]) = 0 <-> _crc8_data l = c).
  { intros l c Hc. unfold _crc8_data. rewrite fold_left_app.
    cbn [fold_left]. fold (_crc8_data l).
    rewrite crc8_from_zero, crc8_zero_iff
      by (apply lxor_byte; [apply crc8_data_range | exact Hc]).
    split.
    - intros H. apply (lxor_cancel_r _ _ c). rewrite Z.lxor_nilpotent. exact H.
    - intros ->. apply Z.lxor_nilpotent. }
  split.
  - apply Hres; [apply crc8_data_range | reflexivity].
  - destruct (frame_split f Hlen) as (a & b & body & c & ->).
    rewrite validate_split, slice_from by lia.
    change (drop (Z.to_nat 2) (a :: b :: body ++ [c])) with (body ++ [c]).
    rewrite Hres.
    + split; [intros H; injection H as H; apply Z.eqb_eq; exact H |].
      intros ->. rewrite Z.eqb_refl. reflexivity.
    + rewrite Forall_forall in Hbytes. apply Hbytes.
      do 2 right. apply elem_of_app. right. left.
Qed.

Lemma crc8_residue_witness :
  _crc8_data ([] ++ [_crc8_data []]) = 0
  /\ (_validate_frame [0xC8; 6; 0x14; 50; 60; 90; 10; 64] = Ok true
      <-> _crc8_data (Py.slice [0xC8; 6; 0x14; 50; 60; 90; 10; 64] (Some 2) None) = 0).
Proof.
  apply (crc8_residue [] [0xC8; 6; 0x14; 50; 60; 90; 10; 64]).
  - repeat constructor; unfold is_byte; lia.
  - vm_compute. discriminate.
Defined.

End Crc8Detection.

(** ** The synchronizer on arbitrary input *)

Section Streaming.

Lemma decode_channel_set_buffer (cd buf : list Z) (i : Z) (r : CRSFReceiver) :
  decode_channel cd i (set_input_buffer buf r)
  = (fst (decode_channel cd i r), set_input_buffer buf (snd (decode_channel cd i r))).
Proof.
  rewrite !decode_channel_cases.
  destruct (raw_channel cd i) as [v | e]; [| reflexivity].
  destruct (to_us v) as [u | e]; reflexivity.
Qed.

Lemma for_each_set_buffer (cd buf l : list Z) (r : CRSFReceiver) :
  for_each l (decode_channel cd) (set_input_buffer buf r)
  = (fst (for_each l (decode_channel cd) r),
     set_input_buffer buf (snd (for_each l (decode_channel cd) r))).
Proof.
  revert r. induction l as [| i l IH]; intros r; [reflexivity |].
  rewrite !for_each_cons, decode_channel_set_buffer.
  destruct (decode_channel cd i r) as [[[] | e] r1]; cbn [fst snd].
  - apply IH.
  - reflexivity.
Qed.

(** The decoders neither read nor write the input buffer. *)
Lemma handle_packet_set_buffer (t : Z) (data buf : list Z) (r : CRSFReceiver) :
  _handle_packet t data (set_input_buffer buf r)
  = (fst (_handle_packet t data r), set_input_buffer buf (snd (_handle_packet t data r))).
Proof.
  unfold _handle_packet.
  destruct (t =? value RC_CHANNELS_PACKED).
  - unfold _decode_channels. apply for_each_set_buffer.
  - destruct (t =? value LINK_STATISTICS); [| reflexivity].
    unfold _decode_link_stats, bind, lift, modify.
    destruct (Py.index data 3); [| reflexivity].
    destruct (Py.index data 4); [| reflexivity].
    destruct (Py.index data 5); [| reflexivity].
    destruct (Py.index data 6); reflexivity.
Qed.

Lemma validate_total (f : list Z) :
  3 <= Py.len f -> exists b, _validate_frame f = Ok b.
Proof.
  intros Hlen. destruct (frame_split f Hlen) as (a & b & body & c & ->).
  rewrite validate_split. eexists. reflexivity.
Qed.

(** The head byte goes, alone, when it is not the sync byte or when the
    LENGTH byte after it is out of range. *)
Lemma update_step_skip_byte (r : CRSFReceiver) :
  2 < Py.len (input_buffer r) ->
  ((exists b0, Py.index (input_buffer r) 0 = Ok b0 /\ b0 <> CRSF_SYNC)
   \/ (Py.index (input_buffer r) 0 = Ok CRSF_SYNC
       /\ exists l, Py.index (input_buffer r) 1 = Ok l /\ ~ 4 <= l + 2 <= 64)) ->
  update_step r = Skip (set_input_buffer (drop 1 (input_buffer r)) r).
Proof.
  intros Hlen Hwhy. unfold update_step.
  replace (2 <? Py.len (input_buffer r)) with true by (symmetry; apply Z.ltb_lt; lia).
  cbn [negb].
  destruct Hwhy as [(b0 & -> & Hb0) | (-> & l & -> & Hl)].
  - apply Z.eqb_neq in Hb0. rewrite Hb0. reflexivity.
  - rewrite Z.eqb_refl. cbn [negb].
    replace ((64 <? l + 2) || (l + 2 <? 4)) with true; [reflexivity |].
    symmetry. apply orb_true_iff. rewrite !Z.ltb_lt. lia.
Qed.

(** The three things a pass of the loop can do; it never raises outside
    [_handle_packet]. *)
Lemma update_step_cases (r : CRSFReceiver) :
  (update_step r = Stop
   /\ (Py.len (input_buffer r) <= 2
       \/ exists l, Py.index (input_buffer r) 0 = Ok CRSF_SYNC
                    /\ Py.index (input_buffer r) 1 = Ok l
                    /\ 4 <= l + 2 <= 64
                    /\ Py.len (input_buffer r) < l + 2))
  \/ (2 < Py.len (input_buffer r)
      /\ update_step r = Skip (set_input_buffer (drop 1 (input_buffer r)) r)
      /\ ((exists b0, Py.index (input_buffer r) 0 = Ok b0 /\ b0 <> CRSF_SYNC)
          \/ (Py.index (input_buffer r) 0 = Ok CRSF_SYNC
              /\ exists l, Py.index (input_buffer r) 1 = Ok l
                           /\ ~ 4 <= l + 2 <= 64)))
  \/ (exists p rest,
        input_buffer r = p ++ rest
        /\ candidate_frame p = true
        /\ ((_validate_frame p = Ok false
             /\ update_step r = Skip (set_input_buffer rest r))
            \/ (exists t,
                  _validate_frame p = Ok true
                  /\ Py.index p 2 = Ok t
                  /\ update_step r
                     = Handle p (_handle_packet t p (set_input_buffer rest r))))).
Proof.
  destruct (Z_le_gt_dec (Py.len (input_buffer r)) 2) as [Hshort | Hlong].
  { left. split; [apply update_step_short; exact Hshort | left; exact Hshort]. }
  destruct (index_lookup (input_buffer r) 0) as (b0 & _ & H0); [lia |].
  destruct (index_lookup (input_buffer r) 1) as (l & _ & H1); [lia |].
  destruct (Z.eq_dec b0 CRSF_SYNC) as [-> | Hb0].
  2: { right. left. split; [lia |].
       assert (Hwhy : (exists b0, Py.index (input_buffer r) 0 = Ok b0 /\ b0 <> CRSF_SYNC)
                      \/ (Py.index (input_buffer r) 0 = Ok CRSF_SYNC
                          /\ exists l, Py.index (input_buffer r) 1 = Ok l
                                       /\ ~ 4 <= l + 2 <= 64))
         by (left; exists b0; split; assumption).
       split; [apply update_step_skip_byte; [lia | exact Hwhy] | exact Hwhy]. }
  destruct (Z_le_gt_dec 4 (l + 2)) as [H4 |];
    [destruct (Z_le_gt_dec (l + 2) 64) as [H64 |] |].
  2, 3: right; left; split; [lia |];
    assert (Hwhy : (exists b0, Py.index (input_buffer r) 0 = Ok b0 /\ b0 <> CRSF_SYNC)
                   \/ (Py.index (input_buffer r) 0 = Ok CRSF_SYNC
                       /\ exists l, Py.index (input_buffer r) 1 = Ok l
                                    /\ ~ 4 <= l + 2 <= 64))
      by (right; split; [exact H0 | exists l; split; [exact H1 | lia]]);
    (split; [apply update_step_skip_byte; [lia | exact Hwhy] | exact Hwhy]).
  destruct (Z_le_gt_dec (l + 2) (Py.len (input_buffer r))) as [Hfull | Hpart].
  - right. right.
    set (n := Z.to_nat (l + 2)).
    assert (Hn : (n <= length (input_buffer r))%nat) by (unfold Py.len in Hfull; lia).
    assert (Hp : Py.len (take n (input_buffer r)) = l + 2)
      by (unfold Py.len; rewrite length_take; lia).
    assert (Hcand : candidate_frame (take n (input_buffer r)) = true).
    { unfold candidate_frame. rewrite !andb_true_iff, !index_is_true, !Z.leb_le.
      rewrite !index_take, Hp by lia.
      replace (l + 2 - 2) with l by lia. auto. }
    exists (take n (input_buffer r)), (drop n (input_buffer r)).
    split; [symmetry; apply take_drop |]. split; [exact Hcand |].
    rewrite (update_step_frame r (take n (input_buffer r)) (drop n (input_buffer r)))
      by (rewrite ?take_drop; auto).
    destruct (validate_total (take n (input_buffer r))) as [[|] Hv]; [lia | |];
      rewrite Hv.
    + right. destruct (index_lookup (take n (input_buffer r)) 2) as (t & _ & Ht); [lia |].
      exists t. rewrite Ht. auto.
    + left. auto.
  - left. split; [| right; exists l; repeat split; try assumption; lia].
    unfold update_step.
    replace (2 <? Py.len (input_buffer r)) with true by (symmetry; apply Z.ltb_lt; lia).
    cbn [negb]. rewrite H0, H1, Z.eqb_refl. cbn [negb].
    replace ((64 <? l + 2) || (l + 2 <? 4)) with false
      by (symmetry; apply orb_false_iff; rewrite !Z.ltb_ge; lia).
    replace (l + 2 <=? Py.len (input_buffer r)) with false
      by (symmetry; apply Z.leb_gt; lia).
    reflexivity.
Qed.

(** What a pass does to a buffer it still does when more bytes follow. *)
Lemma update_step_extend (r : CRSFReceiver) (more : list Z) :
  match update_step r with
  | Stop => True
  | Skip r1 => update_step (extend r more) = Skip (extend r1 more)
  | Handle p out => update_step (extend r more) = Handle p (fst out, extend (snd out) more)
  | Abort _ _ => False
  end.
Proof.
  pose proof (len_nonneg more) as Hmore.
  destruct (update_step_cases r)
    as [[-> _] | [(Hlen & -> & Hwhy) | (p & rest & Hbuf & Hc & Hrun)]].
  - exact I.
  - rewrite update_step_skip_byte.
    + unfold extend. cbn [set_input_buffer input_buffer].
      rewrite drop_app_le by (unfold Py.len in Hlen; lia). reflexivity.
    + unfold extend. cbn [set_input_buffer input_buffer]. rewrite len_app. lia.
    + unfold extend. cbn [set_input_buffer input_buffer].
      destruct Hwhy as [(b0 & H0 & Hb0) | (H0 & l & H1 & Hl)].
      * left. exists b0. rewrite index_app_l by lia. auto.
      * right. rewrite !index_app_l by lia. split; [exact H0 |]. exists l. auto.
  - assert (Hstep : update_step (extend r more)
                    = match _validate_frame p with
                      | Raise e => Abort e (set_input_buffer (rest ++ more) r)
                      | Ok false => Skip (set_input_buffer (rest ++ more) r)
                      | Ok true =>
                          match Py.index p 2 with
                          | Raise e => Abort e (set_input_buffer (rest ++ more) r)
                          | Ok t => Handle p (_handle_packet t p
                                                (set_input_buffer (rest ++ more) r))
                          end
                      end).
    { apply (update_step_frame (extend r more) p (rest ++ more)); [| exact Hc].
      unfold extend. cbn [set_input_buffer input_buffer].
      rewrite Hbuf, app_assoc. reflexivity. }
    destruct Hrun as [(Hv & ->) | (t & Hv & Ht & ->)]; rewrite Hstep, Hv.
    + reflexivity.
    + rewrite Ht.
      change (set_input_buffer (rest ++ more) r)
        with (set_input_buffer (rest ++ more) (set_input_buffer rest r)).
      rewrite (handle_packet_set_buffer t p (rest ++ more) (set_input_buffer rest r)).
      pose proof (handle_packet_buffer t p (set_input_buffer rest r)) as Hb.
      destruct (_handle_packet t p (set_input_buffer rest r)) as [o r1].
      cbn [fst snd] in *. unfold extend. rewrite Hb. reflexivity.
Qed.

Lemma update_loop_mono (n m : nat) (r : CRSFReceiver) (c : cycle) :
  update_loop n r = Some c -> (n <= m)%nat -> update_loop m r = Some c.
Proof.
  revert m r c. induction n as [| n IH]; intros m r c Hrun Hle; [discriminate Hrun |].
  destruct m as [| m]; [lia |]. cbn [update_loop] in *.
  destruct (update_step r) as [| r' | p [[u | e] r'] | e r']; try exact Hrun.
  - apply IH; [exact Hrun | lia].
  - destruct (update_loop n r') as [c' |] eqn:Hc'; [| discriminate Hrun].
    rewrite (IH m r' c' Hc') by lia. exact Hrun.
Qed.

Lemma update_loop_agree (n m : nat) (r : CRSFReceiver) (c c' : cycle) :
  update_loop n r = Some c -> update_loop m r = Some c' -> c = c'.
Proof.
  intros Hn Hm.
  apply (update_loop_mono n (n + m)) in Hn; [| lia].
  apply (update_loop_mono m (n + m)) in Hm; [| lia].
  congruence.
Qed.

(** A loop that ended normally ended at a buffer on which a pass stops. *)
Lemma update_loop_stops (fuel : nat) (r : CRSFReceiver) (c : cycle) :
  update_loop fuel r = Some c -> outcome c = Ok tt -> update_step (receiver c) = Stop.
Proof.
  revert r c. induction fuel as [| fuel IH]; intros r c Hrun Hok; [discriminate Hrun |].
  cbn [update_loop] in Hrun.
  destruct (update_step r) as [| r' | p [[u | e] r'] | e r'] eqn:Hstep.
  - injection Hrun as <-. exact Hstep.
  - apply (IH r'); assumption.
  - destruct (update_loop fuel r') as [c' |] eqn:Hc'; [| discriminate Hrun].
    injection Hrun as <-. apply (IH r' c' Hc'). exact Hok.
  - injection Hrun as <-. discriminate Hok.
  - injection Hrun as <-. discriminate Hok.
Qed.

(** Running the loop on a longer buffer: first what the shorter buffer
    gave, then the loop on what was left with the new bytes behind it. *)
Lemma update_loop_extend
    (fuel fuel2 : nat) (r : CRSFReceiver) (more : list Z) (c c2 : cycle) :
  update_loop fuel r = Some c -> outcome c = Ok tt ->
  update_loop fuel2 (extend (receiver c) more) = Some c2 ->
  update_loop (fuel + fuel2) (extend r more)
  = Some (dispatched c ++ dispatched c2, snd c2).
Proof.
  revert r c. induction fuel as [| fuel IH]; intros r c Hrun Hok Hrest;
    [discriminate Hrun |].
  cbn [update_loop] in Hrun. pose proof (update_step_extend r more) as Hext.
  destruct (update_step r) as [| r' | p [[u | e] r'] | e r'] eqn:Hstep.
  - injection Hrun as <-. cbn [dispatched receiver fst snd app] in *.
    apply (update_loop_mono fuel2); [| lia].
    rewrite Hrest. destruct c2 as [d o]. reflexivity.
  - cbn [Nat.add update_loop]. rewrite Hext. apply (IH r' c); assumption.
  - destruct (update_loop fuel r') as [c' |] eqn:Hc'; [| discriminate Hrun].
    injection Hrun as <-. cbn [Nat.add update_loop]. rewrite Hext. cbn [fst snd].
    rewrite (IH r' c' Hc' Hok Hrest). reflexivity.
  - injection Hrun as <-. discriminate Hok.
  - contradiction.
Qed.

Lemma update_as_loop (r : CRSFReceiver) (incoming : list Z) :
  update r incoming
  = update_loop (S (length (input_buffer (extend r incoming)))) (extend r incoming).
Proof. reflexivity. Qed.

Lemma extend_extend (r : CRSFReceiver) (a b : list Z) :
  extend (extend r a) b = extend r (a ++ b).
Proof. unfold extend. cbn [set_input_buffer input_buffer]. rewrite app_assoc. reflexivity. Qed.

Lemma extend_nil (r : CRSFReceiver) : extend r [] = r.
Proof. unfold extend. rewrite app_nil_r. apply set_input_buffer_same. Qed.

(** X3. How the bytes are cut into reads does not matter: when [update]
    returns normally on a first batch, a second [update] on the next batch
    ends exactly as one [update] on both batches together, with the same
    frames dispatched in the same order. *)
Theorem update_chunking (r : CRSFReceiver) (a b : list Z) (c1 c2 : cycle) :
  update r a = Some c1 -> outcome c1 = Ok tt ->
  update (receiver c1) b = Some c2 ->
  update r (a ++ b)
  = Some (dispatched c1 ++ dispatched c2, (outcome c2, receiver c2)).
Proof.
  intros H1 Hok H2. rewrite update_as_loop in H1, H2.
  pose proof (update_loop_extend _ _ _ b c1 c2 H1 Hok H2) as Hboth.
  rewrite extend_extend in Hboth.
  destruct (update_total r (a ++ b)) as [c Hc]. rewrite Hc.
  rewrite update_as_loop in Hc.
  rewrite (update_loop_agree _ _ _ _ _ Hc Hboth).
  destruct c2 as [d [o r2]]. reflexivity.
Qed.

Lemma update_chunking_witness :
  update init ([0x00; 0xC8; 6; 0x14] ++ [50; 60; 90; 10; 64; 0xC8])
  = Some ([] ++ [[0xC8; 6; 0x14; 50; 60; 90; 10; 64]],
          (Ok tt,
           mkReceiver [0xC8] (channels init)
             (Some {| rssi1 := -50; rssi2 := -60; link_quality := 90; snr := 10 |}))).
Proof.
  apply (update_chunking init [0x00; 0xC8; 6; 0x14] [50; 60; 90; 10; 64; 0xC8]
           ([], (Ok tt, mkReceiver [0xC8; 6; 0x14] (channels init) None))
           ([[0xC8; 6; 0x14; 50; 60; 90; 10; 64]],
            (Ok tt,
             mkReceiver [0xC8] (channels init)
               (Some {| rssi1 := -50; rssi2 := -60; link_quality := 90; snr := 10 |})))).
  - vm_compute. reflexivity.
  - reflexivity.
  - vm_compute. reflexivity.
Defined.

(** X4. After [update] has returned normally, calling it again while the
    port has nothing waiting dispatches nothing and changes nothing. *)
Theorem update_idle (r : CRSFReceiver) (incoming : list Z) (c : cycle) :
  update r incoming = Some c -> outcome c = Ok tt ->
  update (receiver c) [] = Some ([], (Ok tt, receiver c)).
Proof.
  intros Hrun Hok. rewrite update_as_loop in Hrun.
  pose proof (update_loop_stops _ _ _ Hrun Hok) as Hstop.
  rewrite update_as_loop, extend_nil. apply update_loop_stop. exact Hstop.
Qed.

Lemma update_idle_witness :
  update (mkReceiver [0xC8; 6; 0x14] (channels init) None) []
  = Some ([], (Ok tt, mkReceiver [0xC8; 6; 0x14] (channels init) None)).
Proof.
  apply (update_idle init [0x00; 0xC8; 6; 0x14]
           ([], (Ok tt, mkReceiver [0xC8; 6; 0x14] (channels init) None))).
  - vm_compute. reflexivity.
  - reflexivity.
Defined.

(** X5. The buffer does not pile up: when [update] returns normally at
    most 63 bytes stay buffered, and more than two stay only behind a sync
    byte, as the head of a frame that has not arrived in full. *)
Theorem update_leaves_short_buffer
    (r : CRSFReceiver) (incoming : list Z) (c : cycle) :
  update r incoming = Some c -> outcome c = Ok tt ->
  Py.len (input_buffer (receiver c)) <= 63
  /\ (2 < Py.len (input_buffer (receiver c)) ->
      exists l,
        Py.index (input_buffer (receiver c)) 0 = Ok CRSF_SYNC
        /\ Py.index (input_buffer (receiver c)) 1 = Ok l
        /\ Py.len (input_buffer (receiver c)) < l + 2 <= 64).
Proof.
  intros Hrun Hok. rewrite update_as_loop in Hrun.
  pose proof (update_loop_stops _ _ _ Hrun Hok) as Hstop.
  destruct (update_step_cases (receiver c))
    as [[_ [Hshort | (l & H0 & H1 & Hl & Hpart)]]
       | [(_ & Hskip & _) | (p & rest & _ & _ & [(_ & Hskip) | (t & _ & _ & Hh)])]];
    try congruence.
  - split; [lia |]. intros Hlong. lia.
  - split; [lia |]. intros _. exists l. repeat split; try assumption; lia.
Qed.

Lemma update_leaves_short_buffer_witness :
  Py.len (input_buffer (mkReceiver [0xC8; 6; 0x14] (channels init) None)) <= 63.
Proof.
  assert (Hrun : update init [0x00; 0xC8; 6; 0x14]
                 = Some ([], (Ok tt, mkReceiver [0xC8; 6; 0x14] (channels init) None)))
    by (vm_compute; reflexivity).
  exact (proj1 (update_leaves_short_buffer init [0x00; 0xC8; 6; 0x14] _ Hrun eq_refl)).
Defined.

(** X6. [update] always terminates, after at most one pass of its loop per
    buffered byte and one more; any larger bound on the passes gives the
    same result. *)
Theorem update_terminates (r : CRSFReceiver) (incoming : list Z) (fuel : nat) :
  (length (input_buffer r) + length incoming < fuel)%nat ->
  exists c,
    update r incoming = Some c
    /\ update_loop fuel (extend r incoming) = Some c.
Proof.
  intros Hfuel. destruct (update_total r incoming) as [c Hc].
  exists c. split; [exact Hc |].
  rewrite update_as_loop in Hc. apply (update_loop_mono _ _ _ _ Hc).
  unfold extend. cbn [set_input_buffer input_buffer]. rewrite length_app. lia.
Qed.

Lemma update_terminates_witness :
  exists c,
    update init [0x00; 0xC8; 6; 0x14] = Some c
    /\ update_loop 9 (extend init [0x00; 0xC8; 6; 0x14]) = Some c.
Proof.
  apply (update_terminates init [0x00; 0xC8; 6; 0x14] 9).
  cbn [length input_buffer init]. lia.
Defined.

(** *** What is consumed, what is dispatched *)

Lemma prepend_skipped
    (g : list Z) (segs : list (list Z * list Z)) (tail rem buf : list Z) :
  buf = concat ((fun s => fst s ++ snd s) <$> segs) ++ tail ++ rem ->
  exists segs' tail',
    g ++ buf = concat ((fun s => fst s ++ snd s) <$> segs') ++ tail' ++ rem
    /\ snd <$> segs' = snd <$> segs.
Proof.
  intros ->. destruct segs as [| [g1 p1] segs].
  - exists [], (g ++ tail). cbn. rewrite app_assoc. split; reflexivity.
  - exists ((g ++ g1, p1) :: segs), tail. cbn.
    rewrite <- !app_assoc. split; reflexivity.
Qed.

Lemma update_loop_consumes (fuel : nat) (r : CRSFReceiver) (c : cycle) :
  update_loop fuel r = Some c ->
  exists segs tail,
    input_buffer r
    = concat ((fun s => fst s ++ snd s) <$> segs) ++ tail
        ++ input_buffer (receiver c)
    /\ dispatched c = snd <$> segs
    /\ Forall accepted (dispatched c).
Proof.
  revert r c. induction fuel as [| fuel IH]; intros r c Hrun; [discriminate Hrun |].
  cbn [update_loop] in Hrun.
  destruct (update_step_cases r)
    as [[Hs _] | [(Hlen & Hs & _) | (p & rest & Hbuf & Hc & Hcase)]].
  - rewrite Hs in Hrun. injection Hrun as <-. exists [], [].
    split; [reflexivity |]. split; [reflexivity | constructor].
  - rewrite Hs in Hrun. destruct (IH _ _ Hrun) as (segs & tail & Hb & Hd & Ha).
    cbn [set_input_buffer input_buffer] in Hb.
    destruct (prepend_skipped (take 1 (input_buffer r)) _ _ _ _ Hb)
      as (segs' & tail' & Hb' & Hd').
    rewrite take_drop in Hb'. exists segs', tail'.
    split; [exact Hb' |]. split; [congruence | exact Ha].
  - destruct Hcase as [(Hv & Hs) | (t & Hv & Ht & Hs)]; rewrite Hs in Hrun.
    + destruct (IH _ _ Hrun) as (segs & tail & Hb & Hd & Ha).
      cbn [set_input_buffer input_buffer] in Hb.
      destruct (prepend_skipped p _ _ _ _ Hb) as (segs' & tail' & Hb' & Hd').
      rewrite <- Hbuf in Hb'. exists segs', tail'.
      split; [exact Hb' |]. split; [congruence | exact Ha].
    + pose proof (handle_packet_buffer t p (set_input_buffer rest r)) as Hkeep.
      destruct (_handle_packet t p (set_input_buffer rest r)) as [[[] | e] r1].
      * destruct (update_loop fuel r1) as [c' |] eqn:Hc'; [| discriminate Hrun].
        injection Hrun as <-.
        destruct (IH _ _ Hc') as (segs & tail & Hb & Hd & Ha).
        cbn [snd set_input_buffer input_buffer] in Hkeep.
        exists (([], p) :: segs), tail. cbn. rewrite <- app_assoc.
        split; [rewrite Hbuf, <- Hkeep, Hb; reflexivity |].
        unfold dispatched in *. cbn. split; [rewrite Hd; reflexivity |].
        constructor; [split; assumption | exact Ha].
      * injection Hrun as <-. exists [([], p)], [].
        cbn [snd set_input_buffer input_buffer] in Hkeep. cbn.
        rewrite app_nil_r, Hkeep. split; [exact Hbuf |].
        split; [reflexivity |]. repeat constructor; assumption.
Qed.

(** X7. No byte is used twice and none out of turn: what [update] leaves
    in the buffer is a tail of what it had to work on, and the frames it
    dispatches lie before that tail, one after the other in their order,
    with only skipped bytes between them. Each dispatched frame starts with
    the sync byte, has a LENGTH byte two less than its size, 4 to 64 bytes,
    and a correct CRC. *)
Theorem update_consumes_in_order
    (r : CRSFReceiver) (incoming : list Z) (c : cycle) :
  update r incoming = Some c ->
  exists segs tail,
    input_buffer r ++ incoming
    = concat ((fun s => fst s ++ snd s) <$> segs) ++ tail
        ++ input_buffer (receiver c)
    /\ dispatched c = snd <$> segs
    /\ Forall accepted (dispatched c).
Proof.
  intros Hrun. rewrite update_as_loop in Hrun.
  exact (update_loop_consumes _ _ _ Hrun).
Qed.

Lemma update_consumes_in_order_witness :
  exists segs tail,
    input_buffer init ++ [0x00; 0xC8; 3; 0x0B; 7; 17; 0xC8]
    = concat ((fun s => fst s ++ snd s) <$> segs) ++ tail ++ [0xC8]
    /\ [[0xC8; 3; 0x0B; 7; 17]] = snd <$> segs
    /\ Forall accepted [[0xC8; 3; 0x0B; 7; 17]].
Proof.
  assert (Hrun : update init [0x00; 0xC8; 3; 0x0B; 7; 17; 0xC8]
                 = Some ([[0xC8; 3; 0x0B; 7; 17]],
                         (Ok tt, mkReceiver [0xC8] (channels init) None)))
    by (vm_compute; reflexivity).
  exact (update_consumes_in_order init _ _ Hrun).
Defined.

(** *** Exceptions *)

Lemma index_raises (l : list Z) (i : Z) (e : Py.exn) :
  Py.index l i = Raise e -> e = IndexError.
Proof.
  unfold Py.index. destruct (_ || _); [congruence |].
  destruct (l !! _); congruence.
Qed.

Lemma decode_link_stats_outcome (data : list Z) (r : CRSFReceiver) :
  fst (_decode_link_stats data r)
  = if 7 <=? Py.len data then Ok tt else Raise IndexError.
Proof.
  destruct (7 <=? Py.len data) eqn:Hlen.
  - apply Z.leb_le in Hlen.
    destruct (decode_link_stats_ok data r Hlen) as (? & ? & ? & ? & _ & _ & _ & _ & ->).
    reflexivity.
  - apply Z.leb_gt in Hlen. unfold _decode_link_stats, bind, lift, modify.
    rewrite (index_out_of_range data 6) by lia.
    destruct (Py.index data 3) eqn:E3;
      [| apply index_raises in E3; subst; reflexivity].
    destruct (Py.index data 4) eqn:E4;
      [| apply index_raises in E4; subst; reflexivity].
    destruct (Py.index data 5) eqn:E5;
      [| apply index_raises in E5; subst; reflexivity].
    reflexivity.
Qed.

Lemma handle_packet_outcome (t : Z) (p : list Z) (r : CRSFReceiver) :
  Py.index p 2 = Ok t ->
  fst (_handle_packet t p r)
  = if handler_raises p then Raise IndexError else Ok tt.
Proof.
  intros Ht. unfold handler_raises, _handle_packet. rewrite Ht.
  destruct (t =? value RC_CHANNELS_PACKED).
  - rewrite decode_channels_outcome, (Z.ltb_antisym 24 (Py.len p)).
    destruct (24 <=? Py.len p); reflexivity.
  - destruct (t =? value LINK_STATISTICS); [| reflexivity].
    rewrite decode_link_stats_outcome, (Z.ltb_antisym 7 (Py.len p)).
    destruct (7 <=? Py.len p); reflexivity.
Qed.

Lemma update_loop_outcome (fuel : nat) (r : CRSFReceiver) (c : cycle) :
  update_loop fuel r = Some c ->
  (outcome c = Ok tt
   /\ Forall (fun p => handler_raises p = false) (dispatched c))
  \/ (outcome c = Raise IndexError
      /\ exists ps p,
           dispatched c = ps ++ [p]
           /\ Forall (fun q => handler_raises q = false) ps
           /\ handler_raises p = true).
Proof.
  revert r c. induction fuel as [| fuel IH]; intros r c Hrun; [discriminate Hrun |].
  cbn [update_loop] in Hrun.
  destruct (update_step_cases r)
    as [[Hs _] | [(_ & Hs & _) | (p & rest & _ & _ & [(_ & Hs) | (t & _ & Ht & Hs)])]];
    rewrite Hs in Hrun.
  - injection Hrun as <-. left. split; [reflexivity | constructor].
  - exact (IH _ _ Hrun).
  - exact (IH _ _ Hrun).
  - pose proof (handle_packet_outcome t p (set_input_buffer rest r) Ht) as Hout.
    destruct (_handle_packet t p (set_input_buffer rest r)) as [[[] | e] r1];
      cbn [fst] in Hout.
    + destruct (handler_raises p) eqn:Hp; [discriminate Hout |].
      destruct (update_loop fuel r1) as [c' |] eqn:Hc'; [| discriminate Hrun].
      injection Hrun as <-.
      destruct (IH _ _ Hc') as [[Hok Hq] | (Hraise & ps & q & Hd & Hq & Hr)].
      * left. split; [exact Hok |]. constructor; assumption.
      * right. split; [exact Hraise |]. exists (p :: ps), q.
        unfold dispatched in *. cbn. rewrite Hd.
        split; [reflexivity |]. split; [constructor; assumption | exact Hr].
    + destruct (handler_raises p) eqn:Hp; [| discriminate Hout].
      injection Hout as ->. injection Hrun as <-.
      right. split; [reflexivity |]. exists [], p.
      split; [reflexivity |]. split; [constructor | exact Hp].
Qed.

(** X8. The only exception [update] lets out of its loop is [IndexError],
    and only from a decoder: it returns normally exactly when no dispatched
    frame is an RC_CHANNELS_PACKED frame under 24 bytes or a
    LINK_STATISTICS frame under 7; otherwise the first such frame is the
    last one dispatched. *)
Theorem update_raises_only_on_short_frames
    (r : CRSFReceiver) (incoming : list Z) (c : cycle) :
  update r incoming = Some c ->
  (outcome c = Ok tt
   /\ Forall (fun p => handler_raises p = false) (dispatched c))
  \/ (outcome c = Raise IndexError
      /\ exists ps p,
           dispatched c = ps ++ [p]
           /\ Forall (fun q => handler_raises q = false) ps
           /\ handler_raises p = true).
Proof.
  intros Hrun. rewrite update_as_loop in Hrun.
  exact (update_loop_outcome _ _ _ Hrun).
Qed.

Lemma update_raises_only_on_short_frames_witness :
  (@Raise unit IndexError = Ok tt
   /\ Forall (fun p => handler_raises p = false)
        [[0xC8; 3; 0x0B; 7; 17]; [0xC8; 2; 0x14; 0xAC]])
  \/ (@Raise unit IndexError = Raise IndexError
      /\ exists ps p,
           [[0xC8; 3; 0x0B; 7; 17]; [0xC8; 2; 0x14; 0xAC]] = ps ++ [p]
           /\ Forall (fun q => handler_raises q = false) ps
           /\ handler_raises p = true).
Proof.
  assert (Hrun : update init ([0xC8; 3; 0x0B; 7; 17] ++ [0xC8; 2; 0x14; 0xAC])
                 = Some ([[0xC8; 3; 0x0B; 7; 17]; [0xC8; 2; 0x14; 0xAC]],
                         (Raise IndexError, init)))
    by (vm_compute; reflexivity).
  exact (update_raises_only_on_short_frames init _ _ Hrun).
Defined.

(** *** Noise and back-to-back frames *)

(** X9. Bytes none of which is the sync byte are all thrown away, except
    the last two, which the loop never looks at; nothing is dispatched and
    nothing else changes. *)
Theorem noise_is_discarded (r : CRSFReceiver) (noise : list Z) :
  Forall (fun b => b <> CRSF_SYNC) (input_buffer r ++ noise) ->
  update r noise
  = Some ([],
          (Ok tt,
           set_input_buffer
             (drop (length (input_buffer r ++ noise) - 2) (input_buffer r ++ noise))
             r)).
Proof.
  intros Hnoise. rewrite update_as_loop. unfold extend.
  cbn [set_input_buffer input_buffer].
  set (all := input_buffer r ++ noise) in *.
  destruct (Nat.le_gt_cases (length all) 2) as [Hshort | Hlong].
  - replace (length all - 2)%nat with 0%nat by lia. rewrite drop_0.
    apply update_loop_stop. apply update_step_short.
    cbn [set_input_buffer input_buffer]. unfold Py.len. lia.
  - assert (Hdrop : update_loop (length (take (length all - 2) all) + 3)
                      (set_input_buffer
                         (take (length all - 2) all ++ drop (length all - 2) all) r)
                    = update_loop 3 (set_input_buffer (drop (length all - 2) all) r)).
    { apply update_loop_noise.
      - apply Forall_take. exact Hnoise.
      - unfold Py.len. rewrite length_drop. lia. }
    rewrite take_drop in Hdrop.
    replace (S (length all))
      with (length (take (length all - 2) all) + 3)%nat
      by (rewrite length_take; lia).
    rewrite Hdrop.
    apply update_loop_stop. apply update_step_short.
    cbn [set_input_buffer input_buffer]. unfold Py.len.
    rewrite length_drop. lia.
Qed.

Lemma noise_is_discarded_witness :
  update init [1; 2; 3; 4; 5]
  = Some ([],
          (Ok tt,
           set_input_buffer
             (drop (length (input_buffer init ++ [1; 2; 3; 4; 5]) - 2)
                (input_buffer init ++ [1; 2; 3; 4; 5]))
             init)).
Proof.
  apply (noise_is_discarded init [1; 2; 3; 4; 5]).
  repeat constructor; discriminate.
Defined.

(** X10. Two valid frames arriving in one read are both dispatched, in
    order, when the first is handled without error. When the handler of
    the first raises, the second stays in the buffer untouched and the
    next [update], even with nothing new to read, dispatches it. *)
Theorem update_two_frames (r : CRSFReceiver) (f1 f2 : list Z) :
  input_buffer r = [] -> valid_frame f1 = true -> valid_frame f2 = true ->
  exists t1 t2,
    Py.index f1 2 = Ok t1 /\ Py.index f2 2 = Ok t2
    /\ match _handle_packet t1 f1 r with
       | (Ok _, r1) =>
           update r (f1 ++ f2) = Some ([f1; f2], _handle_packet t2 f2 r1)
       | (Raise e, r1) =>
           update r (f1 ++ f2) = Some ([f1], (Raise e, set_input_buffer f2 r1))
           /\ update (set_input_buffer f2 r1) []
              = Some ([f2], _handle_packet t2 f2 r1)
       end.
Proof.
  intros Hbuf Hf1 Hf2.
  destruct (valid_frame_type f1 Hf1) as (t1 & _ & Ht1).
  destruct (valid_frame_type f2 Hf2) as (t2 & _ & Ht2).
  exists t1, t2. split; [exact Ht1 |]. split; [exact Ht2 |].
  pose proof (valid_frame_inv f1 Hf1) as (Hc1 & Hv1 & _).
  pose proof (valid_frame_inv f2 Hf2) as (Hc2 & _ & _).
  pose proof (candidate_frame_inv f2 Hc2) as (Hlen2 & _).
  pose proof (handle_packet_buffer t1 f1 r) as Hkeep. rewrite Hbuf in Hkeep.
  assert (Hfirst : update_step (set_input_buffer (f1 ++ f2) r)
                   = Handle f1 (fst (_handle_packet t1 f1 r),
                                set_input_buffer f2 (snd (_handle_packet t1 f1 r)))).
  { rewrite (update_step_frame _ f1 f2) by (try reflexivity; exact Hc1).
    rewrite Hv1, Ht1.
    change (set_input_buffer f2 (set_input_buffer (f1 ++ f2) r))
      with (set_input_buffer f2 r).
    rewrite handle_packet_set_buffer. reflexivity. }
  assert (Hsecond : forall r1 fuel, input_buffer r1 = [] ->
            update_loop (S (S fuel)) (set_input_buffer f2 r1)
            = Some ([f2], _handle_packet t2 f2 r1)).
  { intros r1 fuel Hr1.
    rewrite (update_loop_frame _ _ f2 t2); try assumption; try reflexivity; [| lia].
    rewrite set_input_buffer_twice, <- Hr1, set_input_buffer_same. reflexivity. }
  destruct (_handle_packet t1 f1 r) as [[[] | e] r1]; cbn [fst snd] in *.
  - rewrite update_as_loop. unfold extend. rewrite Hbuf, app_nil_l.
    cbn [set_input_buffer input_buffer]. rewrite length_app.
    rewrite (update_loop_handle _ _ _ _ _ Hfirst).
    destruct (length f2) as [| [| n2]] eqn:Hn2;
      try (unfold Py.len in Hlen2; lia).
    replace (length f1 + S (S n2))%nat with (S (S (length f1 + n2))) by lia.
    rewrite (Hsecond r1 _ Hkeep). reflexivity.
  - split.
    + rewrite update_as_loop. unfold extend. rewrite Hbuf, app_nil_l.
      cbn [set_input_buffer input_buffer update_loop]. rewrite Hfirst. reflexivity.
    + rewrite update_as_loop, extend_nil. cbn [set_input_buffer input_buffer].
      destruct (length f2) as [| n2] eqn:Hn2; [unfold Py.len in Hlen2; lia |].
      apply (Hsecond r1 n2 Hkeep).
Qed.

Lemma update_two_frames_witness :
  exists t1 t2,
    Py.index [0xC8; 2; 0x14; 0xAC] 2 = Ok t1
    /\ Py.index [0xC8; 6; 0x14; 50; 60; 90; 10; 64] 2 = Ok t2
    /\ match _handle_packet t1 [0xC8; 2; 0x14; 0xAC] init with
       | (Ok _, r1) =>
           update init ([0xC8; 2; 0x14; 0xAC] ++ [0xC8; 6; 0x14; 50; 60; 90; 10; 64])
           = Some ([[0xC8; 2; 0x14; 0xAC]; [0xC8; 6; 0x14; 50; 60; 90; 10; 64]],
                   _handle_packet t2 [0xC8; 6; 0x14; 50; 60; 90; 10; 64] r1)
       | (Raise e, r1) =>
           update init ([0xC8; 2; 0x14; 0xAC] ++ [0xC8; 6; 0x14; 50; 60; 90; 10; 64])
           = Some ([[0xC8; 2; 0x14; 0xAC]],
                   (Raise e, set_input_buffer [0xC8; 6; 0x14; 50; 60; 90; 10; 64] r1))
           /\ update (set_input_buffer [0xC8; 6; 0x14; 50; 60; 90; 10; 64] r1) []
              = Some ([[0xC8; 6; 0x14; 50; 60; 90; 10; 64]],
                      _handle_packet t2 [0xC8; 6; 0x14; 50; 60; 90; 10; 64] r1)
       end.
Proof.
  apply (update_two_frames init [0xC8; 2; 0x14; 0xAC]
           [0xC8; 6; 0x14; 50; 60; 90; 10; 64]); reflexivity.
Defined.

End Streaming.

(** ** More on the decoders *)

Section DecoderFacts.

Lemma decode_link_stats_cases (data : list Z) (r : CRSFReceiver) :
  (7 <= Py.len data
   /\ exists b3 b4 b5 b6,
        data !! 3%nat = Some b3 /\ data !! 4%nat = Some b4
        /\ data !! 5%nat = Some b5 /\ data !! 6%nat = Some b6
        /\ _decode_link_stats data r
           = (Ok tt,
              set_link_stats
                {| rssi1 := - b3;
                   rssi2 := - b4;
                   link_quality := b5;
                   snr := if 128 <=? b6 then b6 - 256 else b6 |} r))
  \/ (Py.len data < 7 /\ _decode_link_stats data r = (Raise IndexError, r)).
Proof.
  destruct (Z_le_gt_dec 7 (Py.len data)) as [Hlen | Hlen].
  - left. split; [exact Hlen |]. apply decode_link_stats_ok. exact Hlen.
  - right. split; [lia |]. unfold _decode_link_stats, bind, lift, modify.
    rewrite (index_out_of_range data 6) by lia.
    destruct (Py.index data 3) eqn:E3;
      [| apply index_raises in E3; subst; reflexivity].
    destruct (Py.index data 4) eqn:E4;
      [| apply index_raises in E4; subst; reflexivity].
    destruct (Py.index data 5) eqn:E5;
      [| apply index_raises in E5; subst; reflexivity].
    reflexivity.
Qed.

(** X11. The two decoders keep to their own field. Decoding channels never
    touches the link statistics or the buffer, whether it finishes or
    raises. Decoding link statistics is all or nothing: it either raises
    [IndexError] and leaves the receiver exactly as it was, or it stores
    one whole new record and changes nothing else. *)
Theorem decoders_keep_to_their_field (data : list Z) (r : CRSFReceiver) :
  (input_buffer (snd (_handle_packet (value RC_CHANNELS_PACKED) data r))
   = input_buffer r
   /\ link_stats (snd (_handle_packet (value RC_CHANNELS_PACKED) data r))
      = link_stats r)
  /\ (_handle_packet (value LINK_STATISTICS) data r = (Raise IndexError, r)
      \/ exists ls,
           _handle_packet (value LINK_STATISTICS) data r
           = (Ok tt, mkReceiver (input_buffer r) (channels r) (Some ls))).
Proof.
  split.
  - unfold _handle_packet. cbn [value Z.eqb Pos.eqb]. unfold _decode_channels.
    destruct (decode_loop_inv (Py.slice data (Some 3) None) (Py.range 16))
      with (r := r) as (Hb & Hl & _).
    + intros i Hi. apply range_elem in Hi. lia.
    + split; assumption.
  - unfold _handle_packet. cbn [value Z.eqb Pos.eqb].
    destruct (decode_link_stats_cases data r)
      as [(_ & b3 & b4 & b5 & b6 & _ & _ & _ & _ & ->) | (_ & ->)].
    + right. eexists. reflexivity.
    + left. reflexivity.
Qed.

(** X12. A decoded RC_CHANNELS_PACKED frame replaces all sixteen channels:
    for frames of 24 bytes or more the channel mapping afterwards depends
    on the frame alone, not on what the channels held before. *)
Theorem decode_channels_overwrites_all (data : list Z) (r1 r2 : CRSFReceiver) :
  24 <= Py.len data ->
  dom (channels r1) = channel_keys -> dom (channels r2) = channel_keys ->
  channels (snd (_decode_channels data r1))
  = channels (snd (_decode_channels data r2)).
Proof.
  intros Hlen Hd1 Hd2. unfold _decode_channels.
  assert (Hall : forall i, i ∈ Py.range 16 ->
            0 <= i /\ i * 11 / 8 < Py.len (Py.slice data (Some 3) None)).
  { intros i Hi. apply range_elem in Hi. rewrite decode_channels_data_len.
    split; [lia |].
    assert (i * 11 / 8 < 21) by (apply Z.div_lt_upper_bound; lia). lia. }
  destruct (decode_loop_ok _ _ (range_NoDup 16) Hall r1)
    as (r1' & -> & _ & _ & Hin1 & Hout1).
  destruct (decode_loop_ok _ _ (range_NoDup 16) Hall r2)
    as (r2' & -> & _ & _ & Hin2 & Hout2).
  cbn [snd]. apply map_eq. intros k.
  destruct (decide (1 <= k <= 16)) as [Hk | Hk].
  - destruct (Hin1 (k - 1)) as (v1 & Hv1 & Hl1); [apply range_elem; lia |].
    destruct (Hin2 (k - 1)) as (v2 & Hv2 & Hl2); [apply range_elem; lia |].
    replace (k - 1 + 1) with k in * by lia. congruence.
  - rewrite Hout1, Hout2.
    + assert (Hn1 : k ∉ dom (channels r1)) by (rewrite Hd1, channel_key_elem; exact Hk).
      assert (Hn2 : k ∉ dom (channels r2)) by (rewrite Hd2, channel_key_elem; exact Hk).
      apply not_elem_of_dom in Hn1, Hn2. congruence.
    + intros i Hi. apply range_elem in Hi. lia.
    + intros i Hi. apply range_elem in Hi. lia.
Qed.

Lemma decode_channels_overwrites_all_witness :
  channels (snd (_decode_channels zeros_frame init))
  = channels (snd (_decode_channels zeros_frame (set_channel 3 1000 init))).
Proof.
  apply (decode_channels_overwrites_all zeros_frame init (set_channel 3 1000 init)).
  - vm_compute. discriminate.
  - vm_compute. reflexivity.
  - vm_compute. reflexivity.
Defined.

(** X13. What is read for channel [i] is the 11-bit field at bit [11 i] of
    the channel data taken as one little-endian number,
    [(n / 2^(11 i)) mod 2048], as soon as the first byte of its window
    exists; bytes of the window past the end of the data count as zero. *)
Theorem channel_field_extraction (cd : list Z) (i : Z) :
  Forall is_byte cd -> 0 <= i -> i * 11 / 8 < Py.len cd ->
  raw_channel cd i = Ok ((le_value cd / 2 ^ (11 * i)) mod 2048).
Proof.
  intros Hcd Hi Hlen. rewrite (raw_channel_field cd i Hcd Hi Hlen).
  unfold spec_field. f_equal.
  change 0x07FF with (Z.ones 11). rewrite Z.land_ones by lia.
  rewrite Z.shiftr_div_pow2 by lia.
  replace (i * 11) with (11 * i) by lia. reflexivity.
Qed.

Lemma channel_field_extraction_witness :
  raw_channel [0xFF; 0x07] 0 = Ok ((le_value [0xFF; 0x07] / 2 ^ (11 * 0)) mod 2048).
Proof.
  apply (channel_field_extraction [0xFF; 0x07] 0).
  - repeat constructor; unfold is_byte; lia.
  - lia.
  - vm_compute. reflexivity.
Defined.

(** X14. On the 11-bit range the conversion to microseconds never
    decreases, moves by at most one step per raw step, and reaches every
    value from 881 to 2150. *)
Theorem to_us_monotone_onto (v w u : Z) :
  0 <= v <= w -> w <= 2047 -> 881 <= u <= 2150 ->
  (exists a b, to_us v = Ok a /\ to_us w = Ok b /\ a <= b <= a + (w - v))
  /\ (exists x, 0 <= x <= 2047 /\ to_us x = Ok u).
Proof.
  intros Hvw Hw Hu. split.
  - exists (us_floor v), (us_floor w).
    rewrite !to_us_exact by lia. split; [reflexivity |]. split; [reflexivity |].
    unfold us_floor. Z.div_mod_to_equations. lia.
  - exists ((100 * u - 88100 + 61) / 62).
    assert (Hx : 0 <= (100 * u - 88100 + 61) / 62 <= 2047)
      by (Z.div_mod_to_equations; lia).
    split; [exact Hx |]. rewrite to_us_exact by exact Hx. f_equal.
    unfold us_floor. Z.div_mod_to_equations. lia.
Qed.

Lemma to_us_monotone_onto_witness :
  (exists a b, to_us 172 = Ok a /\ to_us 1811 = Ok b /\ a <= b <= a + (1811 - 172))
  /\ (exists x, 0 <= x <= 2047 /\ to_us x = Ok 1500).
Proof.
  apply (to_us_monotone_onto 172 1811 1500); lia.
Defined.

End DecoderFacts.

(** ** More on the telemetry encoder *)

Section EncoderFacts.

Lemma pack_H_inv (x : Z) (bytes : list Z) :
  Py.pack_H x = Ok bytes ->
  0 <= x <= 65535 /\ bytes = [x / 256; x mod 256].
Proof.
  unfold Py.pack_H. destruct ((0 <=? x) && (x <=? 65535)) eqn:Hr; [| discriminate].
  apply andb_true_iff in Hr as [H0 H1]. apply Z.leb_le in H0, H1.
  intros H. injection H as <-. split; [lia |].
  rewrite Z.shiftr_div_pow2 by lia.
  change (Z.land x 255) with (Z.land x (Z.ones 8)). rewrite Z.land_ones by lia.
  reflexivity.
Qed.

Lemma pack_B_inv (x : Z) (bytes : list Z) :
  Py.pack_B x = Ok bytes -> 0 <= x <= 255 /\ bytes = [x].
Proof.
  unfold Py.pack_B. destruct ((0 <=? x) && (x <=? 255)) eqn:Hr; [| discriminate].
  apply andb_true_iff in Hr as [H0 H1]. apply Z.leb_le in H0, H1.
  intros H. injection H as <-. split; [lia | reflexivity].
Qed.

Lemma pack_HHHB_inv (a b c d : Z) (payload : list Z) :
  pack_HHHB a b c d = Ok payload ->
  0 <= a <= 65535 /\ 0 <= b <= 65535 /\ 0 <= c <= 65535 /\ 0 <= d <= 255
  /\ payload = [a / 256; a mod 256; b / 256; b mod 256; c / 256; c mod 256; d].
Proof.
  unfold pack_HHHB.
  destruct (Py.pack_H a) as [x |] eqn:Ha; [| discriminate].
  destruct (Py.pack_H b) as [y |] eqn:Hb; [| discriminate].
  destruct (Py.pack_H c) as [z |] eqn:Hc; [| discriminate].
  destruct (Py.pack_B d) as [w |] eqn:Hd; [| discriminate].
  apply pack_H_inv in Ha as [Ha ->]. apply pack_H_inv in Hb as [Hb ->].
  apply pack_H_inv in Hc as [Hc ->]. apply pack_B_inv in Hd as [Hd ->].
  intros H. injection H as <-. auto.
Qed.

Lemma send_battery_telemetry_inv
    (voltage current : float) (mah pct : Z) (frame : list Z) :
  send_battery_telemetry voltage current mah pct = Ok frame ->
  exists vs cs,
    Py.int (voltage * Py.float_of_int 10)%float = Ok vs
    /\ Py.int (current * Py.float_of_int 10)%float = Ok cs
    /\ 0 <= vs <= 65535 /\ 0 <= cs <= 65535
    /\ 0 <= mah <= 65535 /\ 0 <= pct <= 255
    /\ frame
       = build_frame (value BATTERY_SENSOR)
           [vs / 256; vs mod 256; cs / 256; cs mod 256;
            mah / 256; mah mod 256; pct].
Proof.
  unfold send_battery_telemetry.
  destruct (Py.int (voltage * _)%float) as [vs |]; [| discriminate].
  destruct (Py.int (current * _)%float) as [cs |]; [| discriminate].
  destruct (pack_HHHB vs cs mah pct) as [payload |] eqn:Hp; [| discriminate].
  apply pack_HHHB_inv in Hp as (Hv & Hc & Hm & Hq & ->).
  intros H. injection H as <-. exists vs, cs. auto 10.
Qed.

Lemma battery_payload_bytes (vs cs mah pct : Z) :
  0 <= vs <= 65535 -> 0 <= cs <= 65535 -> 0 <= mah <= 65535 -> 0 <= pct <= 255 ->
  Forall is_byte
    [vs / 256; vs mod 256; cs / 256; cs mod 256; mah / 256; mah mod 256; pct].
Proof.
  intros Hv Hc Hm Hq.
  repeat constructor; unfold is_byte; Z.div_mod_to_equations; lia.
Qed.

(** X15. Whenever [send_battery_telemetry] gets as far as writing, what it
    writes is a valid 11-byte frame of type BATTERY_SENSOR with LENGTH 9,
    and the scaled voltage [int(voltage * 10)], the scaled current, the
    capacity and the percentage can be read back from it: every scaled
    value fits its field and the big-endian byte pairs spell it. *)
Theorem battery_frame_reads_back
    (voltage current : float) (mah pct : Z) (frame : list Z) :
  send_battery_telemetry voltage current mah pct = Ok frame ->
  exists vs cs v1 v0 c1 c0 m1 m0 crc,
    Py.int (voltage * Py.float_of_int 10)%float = Ok vs
    /\ Py.int (current * Py.float_of_int 10)%float = Ok cs
    /\ frame = [0xC8; 9; 0x08; v1; v0; c1; c0; m1; m0; pct; crc]
    /\ 256 * v1 + v0 = vs /\ 256 * c1 + c0 = cs /\ 256 * m1 + m0 = mah
    /\ crc = _crc8_data [0x08; v1; v0; c1; c0; m1; m0; pct]
    /\ valid_frame frame = true.
Proof.
  intros Hsend.
  apply send_battery_telemetry_inv in Hsend
    as (vs & cs & Hvs & Hcs & Hv & Hc & Hm & Hq & ->).
  exists vs, cs, (vs / 256), (vs mod 256), (cs / 256), (cs mod 256),
    (mah / 256), (mah mod 256).
  eexists. split; [exact Hvs |]. split; [exact Hcs |].
  split; [rewrite build_frame_shape; reflexivity |].
  split; [Z.div_mod_to_equations; lia |].
  split; [Z.div_mod_to_equations; lia |].
  split; [Z.div_mod_to_equations; lia |].
  split; [reflexivity |].
  apply build_frame_valid.
  - unfold is_byte. cbn. lia.
  - apply battery_payload_bytes; assumption.
  - vm_compute. discriminate.
Qed.

Lemma battery_frame_reads_back_witness :
  exists vs cs v1 v0 c1 c0 m1 m0 crc,
    Py.int (7.4 * Py.float_of_int 10)%float = Ok vs
    /\ Py.int (12.5 * Py.float_of_int 10)%float = Ok cs
    /\ [0xC8; 9; 0x08; 0; 74; 0; 125; 5; 20; 63; 77]
       = [0xC8; 9; 0x08; v1; v0; c1; c0; m1; m0; 63; crc]
    /\ 256 * v1 + v0 = vs /\ 256 * c1 + c0 = cs /\ 256 * m1 + m0 = 1300
    /\ crc = _crc8_data [0x08; v1; v0; c1; c0; m1; m0; 63]
    /\ valid_frame [0xC8; 9; 0x08; 0; 74; 0; 125; 5; 20; 63; 77] = true.
Proof.
  apply (battery_frame_reads_back 7.4%float 12.5%float 1300 63).
  vm_compute. reflexivity.
Defined.

(** X16. A receiver that is fed a frame written by
    [send_battery_telemetry] takes it as one frame, dispatches it, and
    ignores it: channels and link statistics stay as they were and no
    exception is raised. *)
Theorem battery_frame_is_ignored
    (voltage current : float) (mah pct : Z) (frame : list Z) (r : CRSFReceiver) :
  send_battery_telemetry voltage current mah pct = Ok frame ->
  input_buffer r = [] ->
  update r frame = Some ([frame], (Ok tt, r)).
Proof.
  intros Hsend Hbuf.
  apply send_battery_telemetry_inv in Hsend
    as (vs & cs & _ & _ & Hv & Hc & Hm & Hq & ->).
  rewrite (update_frame r _ (value BATTERY_SENSOR) Hbuf).
  - rewrite handle_packet_other by discriminate. reflexivity.
  - apply build_frame_valid.
    + unfold is_byte. cbn. lia.
    + apply battery_payload_bytes; assumption.
    + vm_compute. discriminate.
  - rewrite build_frame_shape. reflexivity.
Qed.

Lemma battery_frame_is_ignored_witness :
  update init [0xC8; 9; 0x08; 0; 74; 0; 125; 5; 20; 63; 77]
  = Some ([[0xC8; 9; 0x08; 0; 74; 0; 125; 5; 20; 63; 77]], (Ok tt, init)).
Proof.
  apply (battery_frame_is_ignored 7.4%float 12.5%float 1300 63).
  - vm_compute. reflexivity.
  - reflexivity.
Defined.

(** X17. [send_battery_telemetry] rejects instead of wrapping: it writes a
    frame exactly when both scaled values exist and all four values fit
    their fields; a scaled voltage or current or a capacity outside
    [0, 65535], or a percentage outside [0, 255], raises the packing error
    and nothing is written. *)
Theorem battery_frame_written_iff
    (voltage current : float) (mah pct vs cs : Z) :
  Py.int (voltage * Py.float_of_int 10)%float = Ok vs ->
  Py.int (current * Py.float_of_int 10)%float = Ok cs ->
  ((exists frame, send_battery_telemetry voltage current mah pct = Ok frame)
   <-> (0 <= vs <= 65535 /\ 0 <= cs <= 65535
        /\ 0 <= mah <= 65535 /\ 0 <= pct <= 255))
  /\ (send_battery_telemetry voltage current mah pct = Raise StructError
      \/ exists frame, send_battery_telemetry voltage current mah pct = Ok frame).
Proof.
  intros Hvs Hcs. split; [split |].
  - intros (frame & Hsend).
    apply send_battery_telemetry_inv in Hsend
      as (vs' & cs' & Hvs' & Hcs' & Hr).
    assert (vs' = vs) by congruence. assert (cs' = cs) by congruence.
    subst. tauto.
  - intros (Hv & Hc & Hm & Hq). unfold send_battery_telemetry.
    rewrite Hvs, Hcs, pack_HHHB_layout by assumption. eexists. reflexivity.
  - unfold send_battery_telemetry. rewrite Hvs, Hcs.
    destruct (pack_HHHB vs cs mah pct) as [payload | e] eqn:Hp.
    + right. eexists. reflexivity.
    + left. f_equal. unfold pack_HHHB in Hp.
      destruct (Py.pack_H vs), (Py.pack_H cs), (Py.pack_H mah), (Py.pack_B pct);
        congruence.
Qed.

Lemma battery_frame_written_iff_witness :
  send_battery_telemetry (-1.0)%float 0.0%float 0 100 = Raise StructError
  \/ exists frame, send_battery_telemetry (-1.0)%float 0.0%float 0 100 = Ok frame.
Proof.
  assert (Hvs : Py.int (-1.0 * Py.float_of_int 10)%float = Ok (-10))
    by (vm_compute; reflexivity).
  assert (Hcs : Py.int (0.0 * Py.float_of_int 10)%float = Ok 0)
    by (vm_compute; reflexivity).
  exact (proj2 (battery_frame_written_iff (-1.0)%float 0.0%float 0 100 _ _ Hvs Hcs)).
Defined.

End EncoderFacts.

(** ** Link statistics over the life of a receiver *)

Section LinkStatsRange.

Lemma handle_packet_link_stats_ok (t : Z) (p : list Z) (r : CRSFReceiver) :
  Forall is_byte p -> link_stats_ok (link_stats r) ->
  link_stats_ok (link_stats (snd (_handle_packet t p r))).
Proof.
  intros Hp Hok. unfold _handle_packet.
  destruct (t =? value RC_CHANNELS_PACKED).
  - unfold _decode_channels.
    destruct (decode_loop_inv (Py.slice p (Some 3) None) (Py.range 16))
      with (r := r) as (_ & -> & _); [| exact Hok].
    intros i Hi. apply range_elem in Hi. lia.
  - destruct (t =? value LINK_STATISTICS); [| exact Hok].
    destruct (decode_link_stats_cases p r)
      as [(_ & b3 & b4 & b5 & b6 & H3 & H4 & H5 & H6 & ->) | (_ & ->)];
      [| exact Hok].
    rewrite Forall_forall in Hp.
    assert (Hb3 : is_byte b3) by (eapply Hp, list_elem_of_lookup_2, H3).
    assert (Hb4 : is_byte b4) by (eapply Hp, list_elem_of_lookup_2, H4).
    assert (Hb5 : is_byte b5) by (eapply Hp, list_elem_of_lookup_2, H5).
    assert (Hb6 : is_byte b6) by (eapply Hp, list_elem_of_lookup_2, H6).
    unfold is_byte in *. cbn.
    destruct (128 <=? b6) eqn:Hs; [apply Z.leb_le in Hs | apply Z.leb_gt in Hs]; lia.
Qed.

Lemma update_loop_link_stats_ok (fuel : nat) (r : CRSFReceiver) (c : cycle) :
  update_loop fuel r = Some c ->
  Forall is_byte (input_buffer r) -> link_stats_ok (link_stats r) ->
  Forall is_byte (input_buffer (receiver c))
  /\ link_stats_ok (link_stats (receiver c)).
Proof.
  revert r c. induction fuel as [| fuel IH]; intros r c Hrun Hb Hok;
    [discriminate Hrun |].
  cbn [update_loop] in Hrun.
  destruct (update_step_cases r)
    as [[Hs _] | [(_ & Hs & _) | (p & rest & Hbuf & _ & [(_ & Hs) | (t & _ & _ & Hs)])]];
    rewrite Hs in Hrun.
  - injection Hrun as <-. split; assumption.
  - apply (IH _ _ Hrun); [| exact Hok]. apply Forall_drop. exact Hb.
  - rewrite Hbuf in Hb. apply Forall_app in Hb as [_ Hrest].
    apply (IH _ _ Hrun); assumption.
  - rewrite Hbuf in Hb. apply Forall_app in Hb as [Hp Hrest].
    pose proof (handle_packet_buffer t p (set_input_buffer rest r)) as Hkeep.
    pose proof (handle_packet_link_stats_ok t p (set_input_buffer rest r) Hp Hok) as Hls.
    destruct (_handle_packet t p (set_input_buffer rest r)) as [[[] | e] r1];
      cbn [snd set_input_buffer input_buffer] in Hkeep, Hls.
    + destruct (update_loop fuel r1) as [c' |] eqn:Hc'; [| discriminate Hrun].
      injection Hrun as <-. apply (IH _ _ Hc'); [rewrite Hkeep |]; assumption.
    + injection Hrun as <-. cbn. rewrite Hkeep. split; assumption.
Qed.

Lemma cycles_link_stats_ok (batches : list (list Z)) (r : CRSFReceiver) :
  Forall (Forall is_byte) batches ->
  Forall is_byte (input_buffer r) -> link_stats_ok (link_stats r) ->
  exists r', cycles r batches = Some r' /\ link_stats_ok (link_stats r').
Proof.
  intros Hbatches. revert r.
  induction Hbatches as [| incoming rest Hin Hrest IH]; intros r Hb Hok.
  - exists r. split; [reflexivity | exact Hok].
  - cbn [cycles]. destruct (update_total r incoming) as [c Hc]. rewrite Hc.
    rewrite update_as_loop in Hc.
    destruct (update_loop_link_stats_ok _ _ _ Hc) as [Hb' Hok'].
    + unfold extend. cbn. apply Forall_app. split; assumption.
    + exact Hok.
    + apply IH; assumption.
Qed.

(** X18. Whatever bytes arrive, in whatever batches, the stored link
    statistics are absent or hold both RSSI values in [-255, 0], the link
    quality in [0, 255] (the code does not cap it at 100) and the SNR in
    [-128, 127]. *)
Theorem link_stats_stay_in_range (batches : list (list Z)) :
  Forall (Forall is_byte) batches ->
  exists r, cycles init batches = Some r /\ link_stats_ok (link_stats r).
Proof.
  intros Hbatches. apply cycles_link_stats_ok.
  - exact Hbatches.
  - constructor.
  - exact I.
Qed.

Lemma link_stats_stay_in_range_witness :
  exists r,
    cycles init [[0xC8; 6; 0x14; 50]; [60; 255; 200; 116]] = Some r
    /\ link_stats_ok (link_stats r).
Proof.
  apply (link_stats_stay_in_range [[0xC8; 6; 0x14; 50]; [60; 255; 200; 116]]).
  repeat constructor; unfold is_byte; lia.
Defined.

End LinkStatsRange.

(** ** Resynchronization *)

Section Resync.

(** C6, as the code has it. For a valid frame [f] and a receiver with
    nothing buffered, feeding two zero bytes and then [f] dispatches
    exactly one frame, [f], and ends in the same state and the same way as
    feeding [f] alone. That state holds one decoded update when [f] is an
    RC_CHANNELS_PACKED frame of 24 bytes or more (all sixteen channels set
    from its 11-bit fields) or a LINK_STATISTICS frame of 7 bytes or more
    (the record replaced), and no update at all when [f] is of any other
    type. A head byte that is not the sync byte is dropped by itself. *)
Theorem resync_decodes_frame (r : CRSFReceiver) (f : list Z) :
  input_buffer r = [] -> valid_frame f = true ->
  exists t c,
    Py.index f 2 = Ok t
    /\ update r ([0x00; 0x00] ++ f) = Some c
    /\ update r f = Some c
    /\ dispatched c = [f]
    /\ (t = value RC_CHANNELS_PACKED -> 24 <= Py.len f ->
        outcome c = Ok tt
        /\ input_buffer (receiver c) = []
        /\ link_stats (receiver c) = link_stats r
        /\ (forall i, 0 <= i < 16 ->
              exists v,
                raw_channel (Py.slice f (Some 3) None) i = Ok v
                /\ v = spec_field (Py.slice f (Some 3) None) i
                /\ channels (receiver c) !! (i + 1)
                   = Some ((62 * v + 88100) / 100))
        /\ (forall k, ~ 1 <= k <= 16 ->
              channels (receiver c) !! k = channels r !! k))
    /\ (t = value LINK_STATISTICS -> 7 <= Py.len f ->
        exists b3 b4 b5 b6,
          f !! 3%nat = Some b3 /\ f !! 4%nat = Some b4
          /\ f !! 5%nat = Some b5 /\ f !! 6%nat = Some b6
          /\ outcome c = Ok tt
          /\ receiver c
             = mkReceiver [] (channels r)
                 (Some {| rssi1 := - b3;
                          rssi2 := - b4;
                          link_quality := b5;
                          snr := if 128 <=? b6 then b6 - 256 else b6 |}))
    /\ (t <> value RC_CHANNELS_PACKED -> t <> value LINK_STATISTICS ->
        outcome c = Ok tt /\ receiver c = r)
    /\ (forall b rest, b <> CRSF_SYNC -> 2 <= Py.len rest ->
          update_step (set_input_buffer (b :: rest) r)
          = Skip (set_input_buffer rest r)).
Proof.
  intros Hbuf Hf. destruct (valid_frame_type f Hf) as (t & _ & Ht).
  pose proof (valid_frame_inv f Hf) as (_ & _ & Hbytes).
  exists t, ([f], _handle_packet t f r).
  split; [exact Ht |].
  split; [apply update_garbage_frame; assumption |].
  split; [apply update_frame; assumption |].
  split; [reflexivity |].
  unfold outcome, receiver. cbn [fst snd].
  split; [| split; [| split]].
  - intros -> Hlen. unfold _handle_packet. rewrite Z.eqb_refl.
    unfold _decode_channels.
    assert (Hall : forall i, i ∈ Py.range 16 ->
              0 <= i /\ i * 11 / 8 < Py.len (Py.slice f (Some 3) None)).
    { intros i Hi. apply range_elem in Hi. rewrite decode_channels_data_len.
      split; [lia |].
      assert (i * 11 / 8 < 21) by (apply Z.div_lt_upper_bound; lia). lia. }
    destruct (decode_loop_ok _ _ (range_NoDup 16) Hall r)
      as (r' & -> & Hb & Hl & Hin & Hout).
    cbn [fst snd]. split; [reflexivity |].
    split; [rewrite Hb; exact Hbuf |]. split; [exact Hl |]. split.
    + intros i Hi.
      assert (Hi' : i ∈ Py.range 16) by (apply range_elem; lia).
      destruct (Hin i Hi') as (v & Hv & Hlook).
      exists v. split; [exact Hv |]. split; [| exact Hlook].
      destruct (Hall i Hi') as [Hi0 Hilen].
      assert (Hfield : raw_channel (Py.slice f (Some 3) None) i
                       = Ok (spec_field (Py.slice f (Some 3) None) i)).
      { apply raw_channel_field; [| exact Hi0 | exact Hilen].
        rewrite slice_from by lia. apply Forall_drop. exact Hbytes. }
      congruence.
    + intros k Hk. apply Hout. intros i Hi ->.
      apply range_elem in Hi. lia.
  - intros -> Hlen. unfold _handle_packet. cbn [value Z.eqb Pos.eqb].
    destruct (decode_link_stats_ok f r Hlen)
      as (b3 & b4 & b5 & b6 & H3 & H4 & H5 & H6 & ->).
    exists b3, b4, b5, b6. repeat (split; [assumption |]).
    cbn [fst snd]. split; [reflexivity |].
    unfold set_link_stats. rewrite Hbuf. reflexivity.
  - intros H1 H2. rewrite handle_packet_other by assumption. split; reflexivity.
  - intros b rest Hb Hrest.
    rewrite (update_step_drop _ b rest); [reflexivity | reflexivity | lia | exact Hb].
Qed.

Lemma resync_decodes_frame_witness :
  exists c,
    update init ([0x00; 0x00] ++ [0xC8; 6; 0x14; 50; 60; 90; 10; 64]) = Some c
    /\ update init [0xC8; 6; 0x14; 50; 60; 90; 10; 64] = Some c
    /\ dispatched c = [[0xC8; 6; 0x14; 50; 60; 90; 10; 64]]
    /\ outcome c = Ok tt
    /\ receiver c
       = mkReceiver [] (channels init)
           (Some {| rssi1 := -50; rssi2 := -60; link_quality := 90; snr := 10 |}).
Proof.
  destruct (resync_decodes_frame init [0xC8; 6; 0x14; 50; 60; 90; 10; 64]
              eq_refl eq_refl)
    as (t & c & Ht & Hnoise & Halone & Hd & _ & Hls & _).
  assert (Hlen : 7 <= Py.len [0xC8; 6; 0x14; 50; 60; 90; 10; 64])
    by (vm_compute; discriminate).
  assert (Htype : t = value LINK_STATISTICS)
    by (vm_compute in Ht; injection Ht as <-; reflexivity).
  destruct (Hls Htype Hlen)
    as (b3 & b4 & b5 & b6 & H3 & H4 & H5 & H6 & Hok & Hr).
  injection H3 as <-. injection H4 as <-. injection H5 as <-. injection H6 as <-.
  exists c. auto.
Defined.

(** C6, as the specification words it, fails: the valid HEARTBEAT frame
    [C8 03 0B 07 11] behind two zero bytes is dispatched, and the receiver
    afterwards is the receiver before; nothing was decoded into it. *)
Lemma resync_unknown_type_no_update :
  valid_frame [0xC8; 3; 0x0B; 7; 17] = true
  /\ update init ([0x00; 0x00] ++ [0xC8; 3; 0x0B; 7; 17])
     = Some ([[0xC8; 3; 0x0B; 7; 17]], (Ok tt, init))
  /\ update init [0xC8; 3; 0x0B; 7; 17]
     = Some ([[0xC8; 3; 0x0B; 7; 17]], (Ok tt, init)).
Proof. repeat split; vm_compute; reflexivity. Qed.

End Resync.
